(** * The link store of dub: [lib/upstash.ts] over a model of Redis

    The file [lib/upstash.ts] keeps short links, their ordered indexes,
    their click logs and a usage cache in one Redis database, reached
    through the Upstash REST client.  Every collection lives under a
    name built by string interpolation:

      - [${hostname}:links]                       hash  key -> record
      - [${hostname}:links:timestamps[:${userId}]] sorted set of keys
      - [${hostname}:clicks:${key}]               sorted set of clicks
      - [${hostname}:root:clicks]                 sorted set of clicks
      - [usage:${hostname}]                       cached number

    The development has three layers: the Redis commands the file calls
    (one flat keyspace, typed values), the exported functions of
    [upstash.ts] written in a small state-and-exception monad, and the
    properties of those functions. *)

From stdpp Require Import gmap strings list fin_maps sorting pretty.
From Stdlib Require Import ZArith Lia.
Local Open Scope Z_scope.

(** ** Values *)

(** The value stored under a field of [${hostname}:links]: the object
    literal [{ url, title, timestamp }] of [setKey] and [editLink]. *)
Record LinkRecord := mkLink {
  url : string;
  title : string;
  timestamp : Z
}.

#[global] Instance LinkRecord_eq_dec : EqDecision LinkRecord.
Proof. solve_decision. Defined.

(** The member [recordClick] adds to a click log. *)
Record ClickEvent := mkClick {
  click_geo : string;
  click_ua : string;
  click_referer : option string;
  click_timestamp : Z
}.

(** What [req] contributes to a click: [req.geo], [userAgent(req)] and
    [req.headers.get("referer")]. *)
Record NextRequest := mkRequest {
  req_geo : string;
  req_ua : string;
  req_referer : option string
}.

(** A value of the Redis keyspace.  A sorted set maps each member to its
    score; the cached scalar remembers the time-to-live it was set with. *)
Inductive rvalue :=
| RHash (fields : gmap string LinkRecord)
| RZSet (members : gmap string Z)
| RNumber (n : Z) (ttl : Z).

#[global] Instance rvalue_eq_dec : EqDecision rvalue.
Proof. solve_decision. Defined.

(** Errors a call can raise. *)
Inductive error :=
| WRONGTYPE                (* command against a name holding another type *)
| NoSuchKey                (* RENAME of a name that is not bound *)
| UpstashError (i : nat)   (* pipeline.exec: command [i] of the batch failed *)
| PipelineEmpty            (* pipeline.exec on a pipeline with no command *)
| TypeError.               (* property read on null *)

#[global] Instance error_eq_dec : EqDecision error.
Proof. solve_decision. Defined.

(** What is outside [upstash.ts]: the constants of [@/lib/constants],
    the title service of [@/lib/utils], the random source, the clock,
    the environment flag, the JSON encoding of a click member, and the
    local calendar of [Date]. *)
Class Runtime := {
  RESERVED_KEYS : list string;
  LOCALHOST_GEO_DATA : string;
  getTitleFromUrl : string → string;
  (** [nanoid n]: the n-th identifier the generator hands out *)
  nanoid : nat → string;
  (** [Date_now n]: the n-th reading of the clock, in milliseconds *)
  Date_now : nat → Z;
  (** [process.env.VERCEL === "1"] *)
  VERCEL : bool;
  stringify : ClickEvent → string;
  (** [d.getFullYear()], [d.getMonth()] and [new Date(y, m, d).getTime()] *)
  getFullYear : Z → Z;
  getMonth : Z → Z;
  Date_local : Z → Z → Z → Z
}.

(** ** The Redis keyspace and its commands *)

Abbreviation keyspace := (gmap string rvalue).

(** A command answers with a number, with the status OK, or fails. *)
Inductive reply :=
| Int (n : Z)
| Status
| Failed (e : error).

#[global] Instance reply_eq_dec : EqDecision reply.
Proof. solve_decision. Defined.

(** Reading a name as a hash or as a sorted set: a name that is not bound
    reads as the empty collection, a name bound to another type is an
    error. *)
Definition as_hash (db : keyspace) (name : string) : error + gmap string LinkRecord :=
  match db !! name with
  | None => inr ∅
  | Some (RHash h) => inr h
  | Some _ => inl WRONGTYPE
  end.

Definition as_zset (db : keyspace) (name : string) : error + gmap string Z :=
  match db !! name with
  | None => inr ∅
  | Some (RZSet z) => inr z
  | Some _ => inl WRONGTYPE
  end.

(** Redis keeps no empty collection: a write that leaves one empty
    removes the name. *)
Definition put_hash (db : keyspace) (name : string) (h : gmap string LinkRecord) : keyspace :=
  if decide (h = ∅) then delete name db else <[name := RHash h]> db.

Definition put_zset (db : keyspace) (name : string) (z : gmap string Z) : keyspace :=
  if decide (z = ∅) then delete name db else <[name := RZSet z]> db.

Definition bool_to_Z (b : bool) : Z := if b then 1 else 0.

Definition has_field {V} (m : gmap string V) (f : string) : bool :=
  match m !! f with Some _ => true | None => false end.

(** HSETNX: create-if-absent; 1 when the field was set, 0 when it was there. *)
Definition HSETNX (name field : string) (v : LinkRecord) (db : keyspace) : reply * keyspace :=
  match as_hash db name with
  | inl e => (Failed e, db)
  | inr h =>
      if has_field h field then (Int 0, db)
      else (Int 1, put_hash db name (<[field := v]> h))
  end.

Definition HEXISTS (name field : string) (db : keyspace) : reply * keyspace :=
  match as_hash db name with
  | inl e => (Failed e, db)
  | inr h => (Int (bool_to_Z (has_field h field)), db)
  end.

(** HSET: unconditional overwrite; replies the number of fields it added. *)
Definition HSET (name field : string) (v : LinkRecord) (db : keyspace) : reply * keyspace :=
  match as_hash db name with
  | inl e => (Failed e, db)
  | inr h => (Int (bool_to_Z (negb (has_field h field))), put_hash db name (<[field := v]> h))
  end.

Definition HDEL (name field : string) (db : keyspace) : reply * keyspace :=
  match as_hash db name with
  | inl e => (Failed e, db)
  | inr h => (Int (bool_to_Z (has_field h field)), put_hash db name (delete field h))
  end.

(** ZADD: insert the member or move it to the new score. *)
Definition ZADD (name : string) (score : Z) (member : string) (db : keyspace) : reply * keyspace :=
  match as_zset db name with
  | inl e => (Failed e, db)
  | inr z => (Int (bool_to_Z (negb (has_field z member))), put_zset db name (<[member := score]> z))
  end.

Definition ZREM (name member : string) (db : keyspace) : reply * keyspace :=
  match as_zset db name with
  | inl e => (Failed e, db)
  | inr z => (Int (bool_to_Z (has_field z member)), put_zset db name (delete member z))
  end.

Definition ZCARD (name : string) (db : keyspace) : reply * keyspace :=
  match as_zset db name with
  | inl e => (Failed e, db)
  | inr z => (Int (Z.of_nat (size z)), db)
  end.

Definition in_range (lo hi score : Z) : bool := (lo <=? score) && (score <=? hi).

Definition count_in_range (lo hi : Z) (z : gmap string Z) : Z :=
  Z.of_nat (length (filter (λ ms, in_range lo hi ms.2 = true) (map_to_list z))).

Definition ZCOUNT (name : string) (lo hi : Z) (db : keyspace) : reply * keyspace :=
  match as_zset db name with
  | inl e => (Failed e, db)
  | inr z => (Int (count_in_range lo hi z), db)
  end.

(** RENAME: moves whatever the source holds, over whatever the
    destination holds; fails when the source is not bound. *)
Definition RENAME (src dst : string) (db : keyspace) : reply * keyspace :=
  match db !! src with
  | None => (Failed NoSuchKey, db)
  | Some v => (Status, <[dst := v]> (delete src db))
  end.

(** The reply of RENAME for a source: OK when the source is bound. *)
Definition rename_reply (db : keyspace) (src : string) : reply :=
  match db !! src with
  | Some _ => Status
  | None => Failed NoSuchKey
  end.

(** SETEX and GET on the cached scalar. *)
Definition SETEX (name : string) (ttl n : Z) (db : keyspace) : reply * keyspace :=
  (Status, <[name := RNumber n ttl]> db).

Definition GET (name : string) (db : keyspace) : error + option Z :=
  match db !! name with
  | None => inr None
  | Some (RNumber n _) => inr (Some n)
  | Some _ => inl WRONGTYPE
  end.

(** ZRANGE name 0 -1: every member, by ascending score and, among equal
    scores, by the order of the member strings; [rev] reads the same
    sequence from its end. *)
Definition member_le (a b : string * Z) : Prop :=
  a.2 < b.2 ∨ (a.2 = b.2 ∧ String.leb a.1 b.1 = true).

#[global] Instance member_le_dec : RelDecision member_le.
Proof. intros a b. unfold member_le. apply _. Defined.


Definition by_rank (z : gmap string Z) : list string :=
  (merge_sort member_le (map_to_list z)).*1.

Definition ZRANGE (name : string) (rev : bool) (db : keyspace) : error + list string :=
  match as_zset db name with
  | inl e => inl e
  | inr z => inr (if rev then reverse (by_rank z) else by_rank z)
  end.

(** The client parses every member ZRANGE replies with as JSON, and
    hands back the text itself when that fails.  So a member comes back
    as another value only when it is the JSON text of a string, an array,
    an object or a number, or a literal with white space around it (the
    literals [true], [false] and [null] print back as their text).  A
    member with no white space in it that does not start with a quote, a
    bracket, a brace, a digit or a minus sign comes back as it is stored;
    the properties that put a member of an index into a name are stated
    for such members. *)
Definition json_space (a : Ascii.ascii) : bool :=
  bool_decide (Ascii.nat_of_ascii a ∈ [9; 10; 13; 32]%nat).

Definition json_opening (a : Ascii.ascii) : bool :=
  bool_decide (Ascii.nat_of_ascii a ∈
                 [34; 91; 123; 45; 48; 49; 50; 51; 52; 53; 54; 55; 56; 57]%nat).

Fixpoint spaceless (s : string) : bool :=
  match s with
  | EmptyString => true
  | String a s' => negb (json_space a) && spaceless s'
  end.

Definition plain (member : string) : bool :=
  spaceless member &&
  match member with
  | EmptyString => true
  | String a _ => negb (json_opening a)
  end.

(** HMGET as the client hands it back: an object with one entry per
    requested field, [null] for a field the hash lacks; and [null] in
    place of the object when no requested field is there. *)
Definition HMGET (name : string) (fields : list string) (db : keyspace)
  : error + option (list (string * option LinkRecord)) :=
  match as_hash db name with
  | inl e => inl e
  | inr h =>
      let values := (λ f, h !! f) <$> fields in
      if forallb (λ v, bool_decide (v = None)) values then inr None
      else inr (Some (zip fields values))
  end.

(** The commands [upstash.ts] puts in a pipeline. *)
Inductive command :=
| hdel (name field : string)
| hset (name field : string) (v : LinkRecord)
| zrem (name member : string)
| zadd (name : string) (score : Z) (member : string)
| zcount (name : string) (lo hi : Z)
| rename (src dst : string).

Definition run (c : command) : keyspace → reply * keyspace :=
  match c with
  | hdel n f => HDEL n f
  | hset n f v => HSET n f v
  | zrem n m => ZREM n m
  | zadd n s m => ZADD n s m
  | zcount n lo hi => ZCOUNT n lo hi
  | rename s d => RENAME s d
  end.

(** A pipeline runs its commands in order, each on the keyspace the
    previous one left, whether or not an earlier one failed. *)
Fixpoint run_batch (cs : list command) (db : keyspace) : list reply * keyspace :=
  match cs with
  | [] => ([], db)
  | c :: cs' =>
      let '(r, db1) := run c db in
      let '(rs, db2) := run_batch cs' db1 in
      (r :: rs, db2)
  end.

Fixpoint first_failure (i : nat) (rs : list reply) : option nat :=
  match rs with
  | [] => None
  | Failed _ :: _ => Some i
  | _ :: rs' => first_failure (S i) rs'
  end.

(** ** The monad of [upstash.ts] *)

(** The state a call runs in: the database, and how many times the
    clock and the generator were read. *)
Record world := mkWorld {
  db : keyspace;
  ticks : nat;
  draws : nat
}.

Definition set_db (d : keyspace) (w : world) : world :=
  mkWorld d (ticks w) (draws w).

(** How a call ends: it returns, it throws, or, for the functions that
    call themselves until a key is free, the fuel given is used up. *)
Inductive outcome (A : Type) :=
| Returns (a : A)
| Throws (e : error)
| OutOfFuel.
Arguments Returns {A} a.
Arguments Throws {A} e.
Arguments OutOfFuel {A}.

#[global] Instance world_eq_dec : EqDecision world.
Proof. solve_decision. Defined.

#[global] Instance outcome_eq_dec {A} `{EqDecision A} : EqDecision (outcome A).
Proof. solve_decision. Defined.

Definition M (A : Type) : Type := world → outcome A * world.

Definition ret {A} (a : A) : M A := λ w, (Returns a, w).
Definition throw {A} (e : error) : M A := λ w, (Throws e, w).

Definition bind {A B} (m : M A) (k : A → M B) : M B := λ w,
  match m w with
  | (Returns a, w') => k a w'
  | (Throws e, w') => (Throws e, w')
  | (OutOfFuel, w') => (OutOfFuel, w')
  end.

Notation "x <- m ;; k" := (bind m (λ x, k))
  (at level 100, m at next level, right associativity).

(** [try { m } catch (e) { h }] *)
Definition try_catch {A} (m : M A) (h : M A) : M A := λ w,
  match m w with
  | (Throws _, w') => h w'
  | r => r
  end.

(** A single command sent on its own: a failure rejects the promise. *)
Definition redis (c : keyspace → reply * keyspace) : M reply := λ w,
  match c (db w) with
  | (Failed e, d) => (Throws e, set_db d w)
  | (r, d) => (Returns r, set_db d w)
  end.

Definition redis_read {A} (c : keyspace → error + A) : M A := λ w,
  match c (db w) with
  | inl e => (Throws e, w)
  | inr a => (Returns a, w)
  end.

(** [pipeline.exec()]: the client refuses an empty pipeline; otherwise
    the whole batch runs, then the client throws if some command failed. *)
Definition pipeline_exec (cs : list command) : M (list reply) := λ w,
  match cs with
  | [] => (Throws PipelineEmpty, w)
  | _ =>
      let '(rs, d) := run_batch cs (db w) in
      match first_failure 0 rs with
      | Some i => (Throws (UpstashError i), set_db d w)
      | None => (Returns rs, set_db d w)
      end
  end.

Section upstash.
Context {rt : Runtime}.

(** [Date.now()] and [new Date()] *)
Definition now : M Z := λ w,
  (Returns (Date_now (ticks w)), mkWorld (db w) (S (ticks w)) (draws w)).

(** [nanoid()]: a 7-character string over the 62 alphanumerics *)
Definition draw : M string := λ w,
  (Returns (nanoid (draws w)), mkWorld (db w) (ticks w) (S (draws w))).

(** A string in a condition: [undefined] and the empty string are false. *)
Definition truthy (s : option string) : bool :=
  match s with
  | Some s => negb (String.eqb s "")
  | None => false
  end.

(** The names of the collections *)
Definition links_name (hostname : string) : string := hostname +:+ ":links".

Definition timestamps_name (hostname : string) (userId : option string) : string :=
  hostname +:+ ":links:timestamps" +:+
  (if truthy userId then ":" +:+ default "" userId else "").

Definition clicks_name (hostname key : string) : string :=
  hostname +:+ ":clicks:" +:+ key.

Definition root_clicks_name (hostname : string) : string := hostname +:+ ":root:clicks".

Definition usage_name (hostname : string) : string := "usage:" +:+ hostname.

Definition reserved (hostname key : string) : bool :=
  String.eqb hostname "dub.sh" && bool_decide (key ∈ RESERVED_KEYS).

(** [setKey], lines 27-38 *)
Definition setKey (hostname key url : string) (title : option string) : M reply :=
  let title := if truthy title then default "" title else getTitleFromUrl url in
  t <- now ;;
  redis (HSETNX (links_name hostname) key (mkLink url title t)).

(** What [setRandomKey] resolves to. *)
Record RandomKey := mkRandomKey { response : reply; key : string }.

#[global] Instance RandomKey_eq_dec : EqDecision RandomKey.
Proof. solve_decision. Defined.

(** [setRandomKey], lines 40-54; the recursion of the source is unrolled
    [fuel] times. *)
Fixpoint setRandomKey (fuel : nat) (hostname url : string) (title : option string)
  : M RandomKey :=
  match fuel with
  | O => λ w, (OutOfFuel, w)
  | S fuel' =>
      key <- draw ;;
      response <- setKey hostname key url title ;;
      if decide (response = Int 0) then setRandomKey fuel' hostname url title
      else ret (mkRandomKey response key)
  end.

(** [getRandomKey], lines 56-66 *)
Fixpoint getRandomKey (fuel : nat) (hostname : string) : M string :=
  match fuel with
  | O => λ w, (OutOfFuel, w)
  | S fuel' =>
      key <- draw ;;
      response <- redis (HEXISTS (links_name hostname) key) ;;
      if decide (response = Int 1) then getRandomKey fuel' hostname
      else ret key
  end.

(** [checkIfKeyExists], lines 68-73 *)
Definition checkIfKeyExists (hostname key : string) : M reply :=
  if reserved hostname key then ret (Int 1)
  else redis (HEXISTS (links_name hostname) key).

(** [recordClick], lines 79-96 *)
Definition recordClick (hostname : string) (req : NextRequest) (key : option string)
  : M reply :=
  let name := if truthy key then clicks_name hostname (default "" key)
              else root_clicks_name hostname in
  score <- now ;;
  t <- now ;;
  let member := mkClick (if VERCEL then req_geo req else LOCALHOST_GEO_DATA)
                        (req_ua req) (req_referer req) t in
  redis (ZADD name score (stringify member)).

(** An element of the array [getLinksForProject] returns:
    [{ key, ...metadata[key] }]. *)
Record LinkProps := mkProps { props_key : string; props_fields : option LinkRecord }.

#[global] Instance LinkProps_eq_dec : EqDecision LinkProps.
Proof. solve_decision. Defined.

(** [metadata[key]]: a property read, on an object or on [null]. *)
Definition property (metadata : option (list (string * option LinkRecord))) (key : string)
  : M (option LinkRecord) :=
  match metadata with
  | None => throw TypeError
  | Some entries => ret (mjoin (list_to_map (M := gmap string (option LinkRecord)) entries !! key))
  end.

Fixpoint map_keys (metadata : option (list (string * option LinkRecord)))
    (keys : list string) : M (list LinkProps) :=
  match keys with
  | [] => ret []
  | key :: keys' =>
      fields <- property metadata key ;;
      rest <- map_keys metadata keys' ;;
      ret (mkProps key fields :: rest)
  end.

(** [getLinksForProject], lines 101-129 *)
Definition getLinksForProject (slug : string) (userId : option string) : M (list LinkProps) :=
  keys <- redis_read (ZRANGE (timestamps_name slug userId) true) ;;
  if decide (keys = []) then ret []
  else
    metadata <- redis_read (HMGET (links_name slug) keys) ;;
    map_keys metadata keys.

(** [getLinkCountForProject], lines 134-136 *)
Definition getLinkCountForProject (slug : string) : M reply :=
  redis (ZCARD (timestamps_name slug None)).

(** [response === 1], for a response that is the number [setKey] resolves
    to or the object [setRandomKey] resolves to. *)
Definition is_one (response : reply + RandomKey) : bool :=
  match response with
  | inl (Int 1) => true
  | _ => false
  end.

(** [addLink], lines 138-163; [None] is [null].  The member written in
    the success branch is [key]: that branch is only reached with a key
    that was supplied, since [is_one] is false of what [setRandomKey]
    resolves to. *)
Definition addLink (fuel : nat) (hostname url : string) (key title userId : option string)
  : M (option reply) :=
  if String.eqb hostname "dub.sh" && truthy key &&
     bool_decide (default "" key ∈ RESERVED_KEYS)
  then ret None
  else
    response <- (if truthy key
                 then r <- setKey hostname (default "" key) url title ;; ret (inl r)
                 else r <- setRandomKey fuel hostname url title ;; ret (inr r)) ;;
    if is_one response then
      score <- now ;;
      r <- redis (ZADD (timestamps_name hostname userId) score (default "" key)) ;;
      ret (Some r)
    else ret None.

(** What [editLink] resolves to: the reply of HSET, [null], or the
    replies of the batch. *)
Inductive EditResult :=
| Updated (r : reply)
| Rejected
| Renamed (rs : list reply).

#[global] Instance EditResult_eq_dec : EqDecision EditResult.
Proof. solve_decision. Defined.

(** [numClicks > 0] *)
Definition positive (r : reply) : bool :=
  match r with
  | Int n => 0 <? n
  | _ => false
  end.

(** The pipeline [editLink] builds, lines 193-214. *)
Definition editLink_batch (hostname key newKey url title : string) (timestamp : Z)
    (userId : option string) (numClicks : reply) : list command :=
  [ hdel (links_name hostname) key;
    hset (links_name hostname) newKey (mkLink url title timestamp);
    zrem (timestamps_name hostname userId) key;
    zadd (timestamps_name hostname userId) timestamp newKey ] ++
  (if positive numClicks
   then [ rename (clicks_name hostname key) (clicks_name hostname newKey) ]
   else []).

(** [editLink], lines 168-217 *)
Definition editLink (hostname key newKey url title : string) (timestamp : Z)
    (userId : option string) : M EditResult :=
  if String.eqb key newKey then
    r <- redis (HSET (links_name hostname) key (mkLink url title timestamp)) ;;
    ret (Updated r)
  else if reserved hostname newKey then ret Rejected
  else
    keyExists <- checkIfKeyExists hostname newKey ;;
    if decide (keyExists = Int 1) then ret Rejected
    else
      numClicks <- redis (ZCARD (clicks_name hostname key)) ;;
      rs <- pipeline_exec
              (editLink_batch hostname key newKey url title timestamp userId numClicks) ;;
      ret (Renamed rs).

(** The billing window of [getUsage], lines 226-236. *)
Definition billing_window (billingCycleStart : option Z) : M (Z * Z) :=
  match billingCycleStart with
  | Some start =>
      lastDay <- now ;;
      ret (start, lastDay)
  | None =>
      date <- now ;;
      ret (Date_local (getFullYear date) (getMonth date) 1,
           Date_local (getFullYear date) (getMonth date + 1) 0)
  end.

(** [results.reduce((acc, curr) => acc + curr, 0)] over the replies of
    the ZCOUNT batch. *)
Definition number (r : reply) : Z :=
  match r with
  | Int n => n
  | _ => 0
  end.

Definition sum_replies (results : list reply) : Z :=
  foldl (λ acc curr, acc + number curr) 0 results.

(** [if (cachedUsage)]: [null] and the number 0 are false. *)
Definition cached (cachedUsage : option Z) : option Z :=
  match cachedUsage with
  | Some n => if decide (n = 0) then None else Some n
  | None => None
  end.

(** [getUsage], lines 219-251 *)
Definition getUsage (hostname : string) (billingCycleStart : option Z) : M Z :=
  cachedUsage <- redis_read (GET (usage_name hostname)) ;;
  match cached cachedUsage with
  | Some n => ret n
  | None =>
      window <- billing_window billingCycleStart ;;
      links <- redis_read (ZRANGE (timestamps_name hostname None) false) ;;
      results <- (if decide (links = []) then ret []
                  else pipeline_exec
                         ((λ link, zcount (clicks_name hostname link) window.1 window.2)
                            <$> links)) ;;
      let usage := sum_replies results in
      _ <- redis (SETEX (usage_name hostname) 3600 usage) ;;
      ret usage
  end.

(** The pipeline [changeDomain] builds, lines 259-271. *)
Definition changeDomain_batch (hostname newHostname : string) (keys : list string)
  : list command :=
  [ rename (links_name hostname) (links_name newHostname);
    rename (timestamps_name hostname None) (timestamps_name newHostname None);
    rename (root_clicks_name hostname) (root_clicks_name newHostname) ] ++
  ((λ key, rename (clicks_name hostname key) (clicks_name newHostname key)) <$> keys).

(** [changeDomain], lines 253-277; [None] is [null]. *)
Definition changeDomain (hostname newHostname : string) : M (option (list reply)) :=
  keys <- redis_read (ZRANGE (timestamps_name hostname None) false) ;;
  try_catch
    (rs <- pipeline_exec (changeDomain_batch hostname newHostname keys) ;; ret (Some rs))
    (ret None).

(** ** The collections, read off the keyspace *)

(** [links[hostname]] *)
Definition links_of (d : keyspace) (hostname : string) : gmap string LinkRecord :=
  match d !! links_name hostname with
  | Some (RHash h) => h
  | _ => ∅
  end.

(** The sorted set under a name; empty when the name holds none. *)
Definition zset_at (d : keyspace) (name : string) : gmap string Z :=
  match d !! name with
  | Some (RZSet z) => z
  | _ => ∅
  end.

(** [links:timestamps[hostname][:userId]], [clicks[hostname][key]] and
    [root:clicks[hostname]] *)
Definition timestamps_of (d : keyspace) (hostname : string) (userId : option string) :=
  zset_at d (timestamps_name hostname userId).

Definition clicks_of (d : keyspace) (hostname key : string) :=
  zset_at d (clicks_name hostname key).

Definition root_clicks_of (d : keyspace) (hostname : string) :=
  zset_at d (root_clicks_name hostname).

(** [usage[hostname]] *)
Definition usage_of (d : keyspace) (hostname : string) : option Z :=
  match d !! usage_name hostname with
  | Some (RNumber n _) => Some n
  | _ => None
  end.

(** The window [getUsage] counts in when the clock reads [t]: from the
    start of the billing cycle to [t], or, with no cycle given, from
    [new Date(y, m, 1)] to [new Date(y, m + 1, 0)] of the month of [t]. *)
Definition window_at (billingCycleStart : option Z) (t : Z) : Z * Z :=
  match billingCycleStart with
  | Some start => (start, t)
  | None => (Date_local (getFullYear t) (getMonth t) 1,
             Date_local (getFullYear t) (getMonth t + 1) 0)
  end.

(** The clicks of the window, summed over the keys of the primary index
    of the hostname. *)
Definition keyed_clicks (d : keyspace) (hostname : string) (window : Z * Z) : Z :=
  foldr Z.add 0
    ((λ k, count_in_range window.1 window.2 (clicks_of d hostname k))
       <$> by_rank (timestamps_of d hostname None)).

(** ** Namespaces *)

(** The names of a hostname all start with the hostname and a colon. *)
Definition namespace (hostname name : string) : bool :=
  String.prefix (hostname +:+ ":") name.

(** No name of the database is in the namespace of the hostname. *)
Definition unused (d : keyspace) (hostname : string) : Prop :=
  map_Forall (λ name _, namespace hostname name = false) d.

(** Two hostnames whose namespaces share no name: neither prefix
    extends the other. *)
Definition apart (h1 h2 : string) : bool :=
  negb (namespace h1 (h2 +:+ ":")) && negb (namespace h2 (h1 +:+ ":")).

(** A hostname as the domain name system has them: no colon in it. *)
Fixpoint colon_free (s : string) : bool :=
  match s with
  | EmptyString => true
  | String a s' => negb (Ascii.eqb a (Ascii.Ascii false true false true true true false false)) && colon_free s'
  end.

(** The collections [changeDomain] renames, and the name of each under
    a hostname. *)
Inductive collection :=
| Links
| Timestamps
| RootClicks
| Clicks (key : string).

Definition name_of (hostname : string) (c : collection) : string :=
  match c with
  | Links => links_name hostname
  | Timestamps => timestamps_name hostname None
  | RootClicks => root_clicks_name hostname
  | Clicks k => clicks_name hostname k
  end.

Definition migrated (keys : list string) : list collection :=
  [Links; Timestamps; RootClicks] ++ (Clicks <$> keys).

(** What a RENAME does to the keyspace, and a sequence of them. *)
Definition move (src dst : string) (d : keyspace) : keyspace :=
  match d !! src with
  | Some v => <[dst := v]> (delete src d)
  | None => d
  end.

Definition move_all (pairs : list (string * string)) (d : keyspace) : keyspace :=
  foldl (λ d p, move p.1 p.2 d) d pairs.

Definition names (pairs : list (string * string)) : list string :=
  pairs ≫= λ p, [p.1; p.2].

End upstash.

(** * A runtime to run the functions in *)

(** The calendar of [Date] when the local time zone is UTC: days since
    1 January 1970 of a civil date, and back. *)
Definition days_from_civil (y m d : Z) : Z :=
  let y' := if m <=? 2 then y - 1 else y in
  let era := y' / 400 in
  let yoe := y' - era * 400 in
  let mp := (m + 9) mod 12 in
  let doy := (153 * mp + 2) / 5 + d - 1 in
  let doe := yoe * 365 + yoe / 4 - yoe / 100 + doy in
  era * 146097 + doe - 719468.

Definition civil_from_days (days : Z) : Z * Z * Z :=
  let z := days + 719468 in
  let era := z / 146097 in
  let doe := z - era * 146097 in
  let yoe := (doe - doe / 1460 + doe / 36524 - doe / 146096) / 365 in
  let doy := doe - (365 * yoe + yoe / 4 - yoe / 100) in
  let mp := (5 * doy + 2) / 153 in
  let d := doy - (153 * mp + 2) / 5 + 1 in
  let m := if mp <? 10 then mp + 3 else mp - 9 in
  (if m <=? 2 then yoe + era * 400 + 1 else yoe + era * 400, m, d).

Definition day_ms : Z := 86400000.

Definition utc_year (t : Z) : Z := (civil_from_days (t / day_ms)).1.1.

(** Months count from 0, as [getMonth] does. *)
Definition utc_month (t : Z) : Z := (civil_from_days (t / day_ms)).1.2 - 1.

(** [new Date(y, m, d).getTime()]: a month past 11 runs into the next
    year, day 0 is the last day of the month before. *)
Definition utc_date (y m d : Z) : Z :=
  let months := y * 12 + m in
  (days_from_civil (months / 12) (months mod 12 + 1) 1 + (d - 1)) * day_ms.

Definition json (c : ClickEvent) : string :=
  click_geo c +:+ "," +:+ click_ua c +:+ "," +:+ default "" (click_referer c) +:+ "," +:+
  pretty (click_timestamp c).

(** A server whose clock reads noon of 5 October 2022 first and one
    second more at every reading, with the identifiers the generator will
    hand out and the reserved keys given. *)
Definition server (reservedKeys ids : list string) : Runtime := {|
  RESERVED_KEYS := reservedKeys;
  LOCALHOST_GEO_DATA := "SF";
  getTitleFromUrl := λ u, "Title of " +:+ u;
  nanoid := λ n, default "zzzzzzz" (ids !! n);
  Date_now := λ n, 1664971200000 + 1000 * Z.of_nat n;
  VERCEL := false;
  stringify := json;
  getFullYear := utc_year;
  getMonth := utc_month;
  Date_local := utc_date
|}.

Definition october : Runtime := server ["login"] ["a1B2c3D"; "e4F5g6H"].

(** A generator that draws the 7-character word "pricing", on a server
    where that word is reserved. *)
Definition unlucky : Runtime := server ["login"; "pricing"] ["pricing"].

Definition empty_world : world := mkWorld ∅ 0 0.

Definition visitor : NextRequest := mkRequest "Berlin" "curl" None.

(** The world a call leaves. *)
Definition after {A} (m : M A) (w : world) : world := (m w).2.

(** The scenario of the specification: on ["ex.test"] the key
    ["abc1234"] is created for ["https://example.com"], then clicked
    three times, and the root is clicked once. *)
Definition ex_test_created : world :=
  after (addLink (rt := october) 0 "ex.test" "https://example.com" (Some "abc1234") None None)
    empty_world.

Definition ex_test_clicked : world :=
  after (recordClick (rt := october) "ex.test" visitor None)
    (after (recordClick (rt := october) "ex.test" visitor (Some "abc1234"))
       (after (recordClick (rt := october) "ex.test" visitor (Some "abc1234"))
          (after (recordClick (rt := october) "ex.test" visitor (Some "abc1234"))
             ex_test_created))).

(** The world after [setRandomKey] has drawn a key for ["ex.test"]. *)
Definition ex_test_random : world :=
  after (setRandomKey (rt := october) 1 "ex.test" "https://example.com" None) empty_world.

(** An index with a member whose record is gone. *)
Definition stale_index : world :=
  mkWorld
    (<["ex.test:links:timestamps" := RZSet (<["gone" := 1]> (<["kept" := 2]> ∅))]>
       (<["ex.test:links" :=
            RHash (<["kept" := mkLink "https://example.com" "Example" 2]> ∅)]> ∅))
    0 0.

(** The scenario with a cached usage of 0. *)
Definition zero_cached : world :=
  set_db (<["usage:ex.test" := RNumber 0 3600]> (db ex_test_clicked)) ex_test_clicked.

(** A generator that has run out of fresh identifiers: every draw is
    ["zzzzzzz"]. *)
Definition stuck : Runtime := server [] [].

(** The world after that generator has given its identifier to a link
    of ["ex.test"]. *)
Definition ex_test_stuck : world :=
  after (setRandomKey (rt := stuck) 1 "ex.test" "https://example.com" None) empty_world.

(** The world of [ex_test_random] with the generator started again: its
    first identifier is taken, its second is free. *)
Definition collision_world : world :=
  mkWorld (db ex_test_random) (ticks ex_test_random) 0.


(** A link of ["dub.sh"] created under a user. *)
Definition user_world : world :=
  after (addLink (rt := october) 0 "dub.sh" "https://example.com" (Some "abc1234") None
           (Some "user1")) empty_world.

(** The scenario after its key was renamed to ["renamed"]. *)
Definition renamed_world : world :=
  after (editLink (rt := october) "ex.test" "abc1234" "renamed" "https://example.org"
           "Example" 7 None) ex_test_clicked.

(** The scenario with a click log for a key that is in no index. *)
Definition unlisted_clicks : keyspace :=
  <["ex.test:clicks:unlisted" := RZSet (<["click" := 1664971200000]> ∅)]> (db ex_test_clicked).

(** The server of [october] on the last day of the month: its clock
    reads noon of 31 October 2022 first. *)
Definition month_end : Runtime := {|
  RESERVED_KEYS := ["login"];
  LOCALHOST_GEO_DATA := "SF";
  getTitleFromUrl := λ u, "Title of " +:+ u;
  nanoid := λ n, default "zzzzzzz" (["a1B2c3D"; "e4F5g6H"] !! n);
  Date_now := λ n, 1667217600000 + 1000 * Z.of_nat n;
  VERCEL := false;
  stringify := json;
  getFullYear := utc_year;
  getMonth := utc_month;
  Date_local := utc_date
|}.

(** The scenario on that day: the key is created and clicked three
    times. *)
Definition last_day_clicked : world :=
  after (recordClick (rt := month_end) "ex.test" visitor (Some "abc1234"))
    (after (recordClick (rt := month_end) "ex.test" visitor (Some "abc1234"))
       (after (recordClick (rt := month_end) "ex.test" visitor (Some "abc1234"))
          (after (addLink (rt := month_end) 0 "ex.test" "https://example.com"
                    (Some "abc1234") None None)
             empty_world))).

(** * Properties *)

(** ** Names *)

Lemma append_length (a b : string) :
  String.length (a +:+ b) = (String.length a + String.length b)%nat.
Proof.
  induction a as [|x a IH]; [done|].
  change (String x a +:+ b) with (String x (a +:+ b)). simpl. by rewrite IH.
Qed.

(** Under one hostname the families have different names. *)
Lemma links_name_ne_timestamps hostname userId :
  links_name hostname ≠ timestamps_name hostname userId.
Proof.
  unfold links_name, timestamps_name. intros E.
  apply (inj (String.append hostname)) in E. discriminate E.
Qed.

Lemma links_name_ne_clicks hostname key :
  links_name hostname ≠ clicks_name hostname key.
Proof.
  unfold links_name, clicks_name. intros E.
  apply (inj (String.append hostname)) in E. discriminate E.
Qed.

Lemma timestamps_name_ne_clicks hostname userId key :
  timestamps_name hostname userId ≠ clicks_name hostname key.
Proof.
  unfold timestamps_name, clicks_name. intros E.
  apply (inj (String.append hostname)) in E. discriminate E.
Qed.

Lemma root_clicks_name_ne_links hostname :
  root_clicks_name hostname ≠ links_name hostname.
Proof.
  unfold links_name, root_clicks_name. intros E.
  apply (inj (String.append hostname)) in E. discriminate E.
Qed.

Lemma root_clicks_name_ne_timestamps hostname userId :
  root_clicks_name hostname ≠ timestamps_name hostname userId.
Proof.
  unfold timestamps_name, root_clicks_name. intros E.
  apply (inj (String.append hostname)) in E. discriminate E.
Qed.

Lemma root_clicks_name_ne_clicks hostname key :
  root_clicks_name hostname ≠ clicks_name hostname key.
Proof.
  unfold clicks_name, root_clicks_name. intros E.
  apply (inj (String.append hostname)) in E. discriminate E.
Qed.

Lemma clicks_name_inj hostname : Inj (=) (=) (clicks_name hostname).
Proof.
  intros k1 k2 E. unfold clicks_name in E.
  apply (inj (String.append hostname)) in E.
  by apply (inj (String.append ":clicks:")) in E.
Qed.

(** ** Writes *)

Lemma put_hash_insert d name field v (h : gmap string LinkRecord) :
  put_hash d name (<[field := v]> h) = <[name := RHash (<[field := v]> h)]> d.
Proof.
  unfold put_hash. destruct (decide _) as [E|]; [|done].
  by apply insert_non_empty in E.
Qed.

Lemma put_zset_insert d name member score (z : gmap string Z) :
  put_zset d name (<[member := score]> z) = <[name := RZSet (<[member := score]> z)]> d.
Proof.
  unfold put_zset. destruct (decide _) as [E|]; [|done].
  by apply insert_non_empty in E.
Qed.

Lemma put_hash_other d name h other :
  other ≠ name → put_hash d name h !! other = d !! other.
Proof.
  intros Hne. unfold put_hash. destruct (decide _).
  - by rewrite lookup_delete_ne.
  - by rewrite lookup_insert_ne.
Qed.

(** A write to a hash changes no sorted set, wherever it lands. *)
Lemma zset_at_put_hash d name h other :
  as_hash d name = inr h →
  ∀ h', zset_at (put_hash d name h') other = zset_at d other.
Proof.
  intros Hh h'. unfold zset_at. destruct (decide (other = name)) as [->|Hne].
  - unfold as_hash in Hh. unfold put_hash. destruct (decide _).
    + rewrite lookup_delete_eq. by destruct (d !! name) as [[]|].
    + rewrite lookup_insert_eq. by destruct (d !! name) as [[]|].
  - by rewrite put_hash_other.
Qed.

Lemma links_of_put_hash d hostname h :
  links_of (put_hash d (links_name hostname) h) hostname = h.
Proof.
  unfold links_of, put_hash. destruct (decide _) as [->|].
  - by rewrite lookup_delete_eq.
  - by rewrite lookup_insert_eq.
Qed.

Lemma as_hash_links_of d hostname h :
  as_hash d (links_name hostname) = inr h → links_of d hostname = h.
Proof.
  unfold as_hash, links_of. by destruct (d !! _) as [[]|]; intros [= <-].
Qed.

Lemma as_zset_zset_at d name z : as_zset d name = inr z → zset_at d name = z.
Proof.
  unfold as_zset, zset_at. by destruct (d !! _) as [[]|]; intros [= <-].
Qed.

(** A ZADD that succeeds binds the name to the set with the member at
    its new score. *)
Lemma redis_ZADD name score member w r w' :
  redis (ZADD name score member) w = (Returns r, w') →
  ∃ z, as_zset (db w) name = inr z ∧
       r = Int (bool_to_Z (negb (has_field z member))) ∧
       w' = set_db (<[name := RZSet (<[member := score]> z)]> (db w)) w.
Proof.
  unfold redis, ZADD. destruct (as_zset _ _) as [e|z]; simpl; [done|].
  intros [= <- <-]. exists z. by rewrite put_zset_insert.
Qed.

Lemma as_hash_put_hash d name h : as_hash (put_hash d name h) name = inr h.
Proof.
  unfold as_hash, put_hash. destruct (decide _) as [->|].
  - by rewrite lookup_delete_eq.
  - by rewrite lookup_insert_eq.
Qed.

Lemma as_zset_put_zset d name z : as_zset (put_zset d name z) name = inr z.
Proof.
  unfold as_zset, put_zset. destruct (decide _) as [->|].
  - by rewrite lookup_delete_eq.
  - by rewrite lookup_insert_eq.
Qed.

Lemma insert_put_hash d name h v : <[name := v]> (put_hash d name h) = <[name := v]> d.
Proof.
  unfold put_hash. destruct (decide _).
  - by rewrite insert_delete_eq.
  - by rewrite insert_insert_eq.
Qed.

Lemma insert_put_zset d name z v : <[name := v]> (put_zset d name z) = <[name := v]> d.
Proof.
  unfold put_zset. destruct (decide _).
  - by rewrite insert_delete_eq.
  - by rewrite insert_insert_eq.
Qed.

Lemma as_zset_lookup d d' name : d' !! name = d !! name → as_zset d' name = as_zset d name.
Proof. unfold as_zset. by intros ->. Qed.

Lemma as_zset_moved d d' name name' :
  d' !! name' = d !! name → as_zset d' name' = as_zset d name.
Proof. unfold as_zset. by intros ->. Qed.

Lemma zset_at_lookup d d' name : d' !! name = d !! name → zset_at d' name = zset_at d name.
Proof. unfold zset_at. by intros ->. Qed.

Lemma pipeline_exec_nonempty cs w :
  cs ≠ [] →
  pipeline_exec cs w =
  let '(rs, d) := run_batch cs (db w) in
  match first_failure 0 rs with
  | Some i => (Throws (UpstashError i), set_db d w)
  | None => (Returns rs, set_db d w)
  end.
Proof. by destruct cs. Qed.

(** A batch in two parts runs the first part, then the second. *)
Lemma run_batch_app cs1 cs2 d :
  run_batch (cs1 ++ cs2) d =
  let '(rs1, d1) := run_batch cs1 d in
  let '(rs2, d2) := run_batch cs2 d1 in
  (rs1 ++ rs2, d2).
Proof.
  revert d. induction cs1 as [|c cs1 IH]; intros d; simpl.
  - by destruct (run_batch cs2 d).
  - destruct (run c d) as [r d1]. rewrite IH.
    destruct (run_batch cs1 d1) as [rs1 d2]. by destruct (run_batch cs2 d2).
Qed.

(** The first four commands of the batch of [editLink]. *)
Lemma run_rename_key d lname tname k newKey v score h z :
  lname ≠ tname →
  as_hash d lname = inr h →
  as_zset d tname = inr z →
  run_batch [hdel lname k; hset lname newKey v; zrem tname k; zadd tname score newKey] d =
  ([Int (bool_to_Z (has_field h k));
    Int (bool_to_Z (negb (has_field (delete k h) newKey)));
    Int (bool_to_Z (has_field z k));
    Int (bool_to_Z (negb (has_field (delete k z) newKey)))],
   <[tname := RZSet (<[newKey := score]> (delete k z))]>
     (<[lname := RHash (<[newKey := v]> (delete k h))]> d)).
Proof.
  intros Hne Hh Hz. simpl. unfold HDEL. rewrite Hh.
  unfold HSET. rewrite as_hash_put_hash, put_hash_insert, insert_put_hash.
  unfold ZREM. rewrite (as_zset_lookup d) by (by rewrite lookup_insert_ne).
  rewrite Hz. unfold ZADD. by rewrite as_zset_put_zset, put_zset_insert, insert_put_zset.
Qed.

(** ** Renaming *)

Lemma lookup_move src dst d name :
  move src dst d !! name =
  match d !! src with
  | None => d !! name
  | Some v => if decide (name = dst) then Some v
              else if decide (name = src) then None else d !! name
  end.
Proof.
  unfold move. destruct (d !! src) as [v|] eqn:Hsrc; [|done].
  destruct (decide (name = dst)) as [->|Hd]; [by rewrite lookup_insert_eq|].
  rewrite lookup_insert_ne by done.
  destruct (decide (name = src)) as [->|Hs]; [by rewrite lookup_delete_eq|].
  by rewrite lookup_delete_ne.
Qed.

Lemma move_back src dst d :
  src ≠ dst → d !! dst = None → move dst src (move src dst d) = d.
Proof.
  intros Hne Hdst. apply map_eq. intros name. rewrite !lookup_move.
  destruct (d !! src) as [v|] eqn:Hsrc.
  - rewrite decide_True by done.
    repeat case_decide; simplify_eq; congruence.
  - by rewrite Hdst.
Qed.

Lemma move_comm s1 d1 s2 d2 d :
  s1 ≠ s2 → s1 ≠ d2 → d1 ≠ s2 → d1 ≠ d2 →
  move s1 d1 (move s2 d2 d) = move s2 d2 (move s1 d1 d).
Proof.
  intros H1 H2 H3 H4. apply map_eq. intros name. rewrite !lookup_move.
  destruct (d !! s1) as [v1|] eqn:Hs1, (d !! s2) as [v2|] eqn:Hs2;
    repeat (case_decide; simplify_eq); try done; by rewrite ?Hs1, ?Hs2.
Qed.

Lemma move_all_cons p pairs d :
  move_all (p :: pairs) d = move_all pairs (move p.1 p.2 d).
Proof. done. Qed.

Lemma names_cons p pairs : names (p :: pairs) = p.1 :: p.2 :: names pairs.
Proof. done. Qed.

Lemma move_all_comm src dst pairs d :
  src ∉ names pairs → dst ∉ names pairs →
  move src dst (move_all pairs d) = move_all pairs (move src dst d).
Proof.
  revert d. induction pairs as [|[s0 d0] pairs IH]; intros d Hs Hd; [done|].
  rewrite names_cons in Hs, Hd. simpl in Hs, Hd.
  apply not_elem_of_cons in Hs as [? [? ?]%not_elem_of_cons].
  apply not_elem_of_cons in Hd as [? [? ?]%not_elem_of_cons].
  rewrite !move_all_cons. simpl. rewrite IH by done. f_equal.
  by apply move_comm.
Qed.

(** A name outside a sequence of renames keeps what it holds. *)
Lemma lookup_move_all_other pairs d name :
  name ∉ names pairs → move_all pairs d !! name = d !! name.
Proof.
  revert d. induction pairs as [|[s0 d0] pairs IH]; intros d Hn; [done|].
  rewrite names_cons in Hn. simpl in Hn.
  apply not_elem_of_cons in Hn as [? [? ?]%not_elem_of_cons].
  rewrite move_all_cons, IH by done. simpl. rewrite lookup_move.
  destruct (d !! s0); [|done]. by rewrite !decide_False.
Qed.

(** Renames between names that are all different, onto names that are
    free: each destination ends with what its source held, each source
    ends free, and the renames in the other direction undo them. *)
Lemma lookup_move_all_dst pairs d src dst :
  NoDup (names pairs) → (src, dst) ∈ pairs → d !! dst = None →
  move_all pairs d !! dst = d !! src.
Proof.
  revert d. induction pairs as [|[s0 d0] pairs IH]; intros d Hnd Hin Hfree.
  { by apply elem_of_nil in Hin. }
  rewrite names_cons in Hnd. simpl in Hnd.
  apply NoDup_cons in Hnd as [Hs0 [Hd0 Hnd]%NoDup_cons].
  apply not_elem_of_cons in Hs0 as [Hsd Hs0].
  rewrite move_all_cons. simpl.
  apply elem_of_cons in Hin as [[= -> ->]|Hin].
  - rewrite lookup_move_all_other by done. rewrite lookup_move.
    destruct (d !! s0) eqn:Hs; [by rewrite decide_True|done].
  - assert (src ∈ names pairs ∧ dst ∈ names pairs) as [Hsrc Hdst].
    { unfold names. split; apply list_elem_of_bind; exists (src, dst);
        (split; [simpl; set_solver|done]). }
    assert (src ≠ s0 ∧ src ≠ d0 ∧ dst ≠ s0 ∧ dst ≠ d0) as (? & ? & ? & ?).
    { split_and!; by intros ->. }
    rewrite IH; [|done|done|].
    + rewrite lookup_move. destruct (d !! s0); [|done]. by rewrite !decide_False.
    + rewrite lookup_move. destruct (d !! s0); [|done]. by rewrite !decide_False.
Qed.

Lemma lookup_move_all_src pairs d src dst :
  NoDup (names pairs) → (src, dst) ∈ pairs → d !! dst = None →
  move_all pairs d !! src = None.
Proof.
  revert d. induction pairs as [|[s0 d0] pairs IH]; intros d Hnd Hin Hfree.
  { by apply elem_of_nil in Hin. }
  rewrite names_cons in Hnd. simpl in Hnd.
  apply NoDup_cons in Hnd as [Hs0 [Hd0 Hnd]%NoDup_cons].
  apply not_elem_of_cons in Hs0 as [Hsd Hs0].
  rewrite move_all_cons. simpl.
  apply elem_of_cons in Hin as [[= -> ->]|Hin].
  - rewrite lookup_move_all_other by done. rewrite lookup_move.
    destruct (d !! s0) eqn:Hs; [|done].
    rewrite decide_False by done. by rewrite decide_True.
  - assert (src ∈ names pairs ∧ dst ∈ names pairs) as [Hsrc Hdst].
    { unfold names. split; apply list_elem_of_bind; exists (src, dst);
        (split; [simpl; set_solver|done]). }
    assert (dst ≠ s0 ∧ dst ≠ d0) as (? & ?).
    { split_and!; by intros ->. }
    apply IH; [done|done|].
    rewrite lookup_move. destruct (d !! s0); [|done]. by rewrite !decide_False.
Qed.

Lemma move_all_back pairs d :
  NoDup (names pairs) →
  (∀ p, p ∈ pairs → d !! p.2 = None) →
  move_all (prod_swap <$> pairs) (move_all pairs d) = d.
Proof.
  revert d. induction pairs as [|[s0 d0] pairs IH]; intros d Hnd Hfree; [done|].
  rewrite names_cons in Hnd. simpl in Hnd.
  apply NoDup_cons in Hnd as [Hs0 [Hd0 Hnd]%NoDup_cons].
  apply not_elem_of_cons in Hs0 as [Hsd Hs0].
  rewrite fmap_cons, !move_all_cons. simpl.
  rewrite move_all_comm by done.
  rewrite move_back; [|done|by apply (Hfree (s0, d0)); left].
  apply IH; [done|]. intros p Hp. apply Hfree. by right.
Qed.

(** A batch of RENAME changes the keyspace as [move_all] does. *)
Lemma run_batch_rename pairs d :
  (run_batch ((λ p, rename p.1 p.2) <$> pairs) d).2 = move_all pairs d.
Proof.
  revert d. induction pairs as [|[s0 d0] pairs IH]; intros d; [done|].
  rewrite fmap_cons, move_all_cons. cbn [run_batch run]. rewrite <- IH.
  unfold RENAME, move. simpl.
  destruct (d !! s0); by destruct (run_batch _ _).
Qed.

(** ** Namespaces *)

Lemma prefix_append_same a p s : String.prefix (a +:+ p) (a +:+ s) = String.prefix p s.
Proof.
  induction a as [|x a IH]; [done|].
  change (String x a +:+ p) with (String x (a +:+ p)).
  change (String x a +:+ s) with (String x (a +:+ s)). simpl.
  by destruct (Ascii.ascii_dec x x).
Qed.

(** Two prefixes of one string: one is a prefix of the other. *)
Lemma prefix_comparable p q s :
  String.prefix p s = true → String.prefix q s = true →
  String.prefix p q = true ∨ String.prefix q p = true.
Proof.
  revert q s. induction p as [|a p IH]; intros q s Hp Hq.
  { left. by destruct q. }
  destruct q as [|b q]; [right; by destruct p|].
  destruct s as [|c s]; [done|]. simpl in *.
  destruct (Ascii.ascii_dec a c) as [->|]; [|done].
  destruct (Ascii.ascii_dec b c) as [->|]; [|done].
  destruct (Ascii.ascii_dec c c); [|done]. by eapply IH.
Qed.

Lemma prefix_colon_free h1 h2 :
  colon_free h1 = true → colon_free h2 = true → h1 ≠ h2 →
  String.prefix (h1 +:+ ":") (h2 +:+ ":") = false.
Proof.
  revert h2. induction h1 as [|a h1 IH]; intros [|b h2] H1 H2 Hne; try done.
  - change (String b h2 +:+ ":") with (String b (h2 +:+ ":")).
    cbn [colon_free] in H2. apply andb_true_iff in H2 as [Hb _].
    apply negb_true_iff, Ascii.eqb_neq in Hb.
    change ("" +:+ ":") with ":". cbn [String.prefix].
    by destruct (Ascii.ascii_dec _ b) as [<-|].
  - change (String a h1 +:+ ":") with (String a (h1 +:+ ":")).
    cbn [colon_free] in H1. apply andb_true_iff in H1 as [Ha _].
    apply negb_true_iff, Ascii.eqb_neq in Ha.
    change ("" +:+ ":") with ":". cbn [String.prefix].
    by destruct (Ascii.ascii_dec a _) as [->|].
  - change (String a h1 +:+ ":") with (String a (h1 +:+ ":")).
    change (String b h2 +:+ ":") with (String b (h2 +:+ ":")).
    cbn [colon_free] in H1, H2. cbn [String.prefix].
    apply andb_true_iff in H1 as [_ H1], H2 as [_ H2].
    destruct (Ascii.ascii_dec a b) as [->|]; [|done].
    apply IH; [done|done|]. by intros ->.
Qed.

(** Two different hostnames without a colon are apart. *)
Lemma apart_colon_free h1 h2 :
  colon_free h1 = true → colon_free h2 = true → h1 ≠ h2 → apart h1 h2 = true.
Proof.
  intros H1 H2 Hne. unfold apart, namespace.
  rewrite !prefix_colon_free; done.
Qed.

Lemma namespace_name_of hostname c : namespace hostname (name_of hostname c) = true.
Proof.
  unfold namespace.
  destruct c; simpl; unfold links_name, timestamps_name, root_clicks_name, clicks_name;
    by rewrite prefix_append_same.
Qed.

Lemma apart_name_of h1 h2 c1 c2 :
  apart h1 h2 = true → name_of h1 c1 ≠ name_of h2 c2.
Proof.
  unfold apart. intros [H1 H2]%andb_true_iff E.
  apply negb_true_iff in H1, H2. unfold namespace in H1, H2.
  pose proof (namespace_name_of h1 c1) as N1.
  pose proof (namespace_name_of h2 c2) as N2.
  rewrite <- E in N2. unfold namespace in N1, N2.
  destruct (prefix_comparable _ _ _ N1 N2); congruence.
Qed.

Lemma unused_lookup d hostname name :
  unused d hostname → namespace hostname name = true → d !! name = None.
Proof.
  intros Hun Hin. destruct (d !! name) as [v|] eqn:Hv; [|done].
  apply Hun in Hv. congruence.
Qed.

#[global] Instance name_of_inj hostname : Inj (=) (=) (name_of hostname).
Proof.
  intros c1 c2 E.
  pose proof (links_name_ne_timestamps hostname None).
  pose proof (root_clicks_name_ne_links hostname).
  pose proof (root_clicks_name_ne_timestamps hostname None).
  destruct c1 as [| | |k1], c2 as [| | |k2]; simpl in E; try done;
    try (by symmetry in E);
    try (by apply links_name_ne_clicks in E);
    try (by symmetry in E; apply links_name_ne_clicks in E);
    try (by apply timestamps_name_ne_clicks in E);
    try (by symmetry in E; apply timestamps_name_ne_clicks in E);
    try (by apply root_clicks_name_ne_clicks in E);
    try (by symmetry in E; apply root_clicks_name_ne_clicks in E).
  f_equal. by apply clicks_name_inj in E.
Qed.

Lemma elem_of_names_fmap {A} (f g : A → string) (l : list A) name :
  name ∈ names ((λ a, (f a, g a)) <$> l) → ∃ a, a ∈ l ∧ (name = f a ∨ name = g a).
Proof.
  unfold names. intros [[s d] [Hn Hin]]%list_elem_of_bind.
  apply list_elem_of_fmap in Hin as [a [[= -> ->] Ha]].
  exists a. split; [done|]. simpl in Hn.
  apply elem_of_cons in Hn as [->|Hn]; [by left|].
  apply list_elem_of_singleton in Hn as ->. by right.
Qed.

(** Renames of different collections between two namespaces that are
    apart touch names that are all different. *)
Lemma NoDup_names_fmap {A} (f g : A → string) (l : list A) :
  Inj (=) (=) f → Inj (=) (=) g → (∀ a b, f a ≠ g b) → NoDup l →
  NoDup (names ((λ a, (f a, g a)) <$> l)).
Proof.
  intros Hf Hg Hfg. induction 1 as [|a l Ha Hl IH]; [constructor|].
  rewrite fmap_cons, names_cons. simpl.
  apply NoDup_cons. split; [|apply NoDup_cons; split; [|done]].
  - intros [E|Hin]%elem_of_cons; [by apply Hfg in E|].
    apply elem_of_names_fmap in Hin as [b [Hb [E|E]]]; [|by apply Hfg in E].
    apply Hf in E. by subst.
  - intros Hin. apply elem_of_names_fmap in Hin as [b [Hb [E|E]]].
    + symmetry in E. by apply Hfg in E.
    + apply Hg in E. by subst.
Qed.

(** The pairs [changeDomain] renames. *)
Lemma changeDomain_batch_pairs hostname newHostname keys :
  changeDomain_batch hostname newHostname keys =
  (λ p, rename p.1 p.2) <$>
    ((λ c, (name_of hostname c, name_of newHostname c)) <$> migrated keys).
Proof.
  unfold changeDomain_batch, migrated. rewrite !fmap_app. simpl. do 3 f_equal.
  rewrite <- !list_fmap_compose. by apply list_fmap_ext.
Qed.

(** The database [changeDomain] leaves: the batch has run whether or not
    the call reports a failure. *)
Lemma changeDomain_db hostname newHostname w :
  (changeDomain hostname newHostname w).2 =
  match as_zset (db w) (timestamps_name hostname None) with
  | inl _ => w
  | inr z =>
      set_db (move_all ((λ c, (name_of hostname c, name_of newHostname c))
                          <$> migrated (by_rank z)) (db w)) w
  end.
Proof.
  unfold changeDomain, bind, redis_read, ZRANGE.
  destruct (as_zset _ _) as [e|z]; [done|].
  unfold try_catch. rewrite pipeline_exec_nonempty by done.
  unfold ret. rewrite changeDomain_batch_pairs.
  rewrite <- run_batch_rename.
  destruct (run_batch _ _) as [rs d']. simpl. by destruct (first_failure 0 rs).
Qed.

Lemma move_all_absent pairs d :
  (∀ p, p ∈ pairs → d !! p.1 = None) → move_all pairs d = d.
Proof.
  induction pairs as [|p pairs IH]; intros Habs; [done|].
  rewrite move_all_cons. unfold move at 1. rewrite (Habs p) by (by left).
  apply IH. intros q Hq. apply Habs. by right.
Qed.

Lemma NoDup_migrated keys : NoDup keys → NoDup (migrated keys).
Proof.
  intros Hkeys. unfold migrated. apply NoDup_app. split_and!.
  - repeat (apply NoDup_cons; split;
              [intros Hx; repeat (apply elem_of_cons in Hx as [Hx|Hx]; [done|]);
               by apply elem_of_nil in Hx|]).
    constructor.
  - intros c Hc [k [-> _]]%list_elem_of_fmap.
    repeat (apply elem_of_cons in Hc as [Hc|Hc]; [done|]).
    by apply elem_of_nil in Hc.
  - apply NoDup_fmap; [|done]. by intros k1 k2 [= ->].
Qed.

(** ** Counting clicks *)

Lemma first_failure_Int i (ns : list Z) : first_failure i (Int <$> ns) = None.
Proof. revert i. induction ns as [|n ns IH]; intros i; simpl; [done|apply IH]. Qed.

Lemma sum_replies_Int (ns : list Z) : sum_replies (Int <$> ns) = foldr Z.add 0 ns.
Proof.
  unfold sum_replies.
  assert (∀ acc, foldl (λ acc curr, acc + number curr) acc (Int <$> ns)
                 = acc + foldr Z.add 0 ns) as Hgen.
  { induction ns as [|n ns IH]; intros acc; simpl; [lia|]. rewrite IH. lia. }
  rewrite Hgen. lia.
Qed.

(** A batch of ZCOUNT over click logs answers with the counts and
    leaves the keyspace alone. *)
(** When every event of a log is in the window, the count is the size of
    the log. *)
Lemma count_in_range_all lo hi (c : gmap string Z) :
  map_Forall (λ _ score, in_range lo hi score = true) c →
  count_in_range lo hi c = Z.of_nat (size c).
Proof.
  intros Hall. unfold count_in_range. rewrite <- length_map_to_list. do 2 f_equal.
  apply map_Forall_to_list in Hall. induction Hall as [|[m score] l Hm Hl IH]; [done|].
  rewrite filter_cons_True by done. by f_equal.
Qed.

Lemma run_zcounts d hostname lo hi keys :
  (∀ k, k ∈ keys → ∃ c, as_zset d (clicks_name hostname k) = inr c) →
  run_batch ((λ k, zcount (clicks_name hostname k) lo hi) <$> keys) d =
  (Int <$> ((λ k, count_in_range lo hi (clicks_of d hostname k)) <$> keys), d).
Proof.
  induction keys as [|k keys IH]; intros Htyped; [done|].
  rewrite !fmap_cons. cbn [run_batch run]. unfold ZCOUNT.
  destruct (Htyped k) as [c Hc]; [by left|].
  rewrite Hc. rewrite IH by (intros k' Hk'; apply Htyped; by right).
  unfold clicks_of at 2. by rewrite (as_zset_zset_at _ _ _ Hc).
Qed.

(** ** Reading an index *)

Lemma by_rank_Permutation (z : gmap string Z) : by_rank z ≡ₚ (map_to_list z).*1.
Proof. unfold by_rank. by rewrite merge_sort_Permutation. Qed.

Lemma elem_of_by_rank (z : gmap string Z) k : k ∈ by_rank z ↔ is_Some (z !! k).
Proof.
  rewrite by_rank_Permutation, list_elem_of_fmap. split.
  - intros [[k' v] [-> Hin]]. apply elem_of_map_to_list in Hin. simpl. eauto.
  - intros [v Hv]. exists (k, v). split; [done|]. by apply elem_of_map_to_list.
Qed.

Lemma NoDup_by_rank (z : gmap string Z) : NoDup (by_rank z).
Proof. rewrite by_rank_Permutation. apply NoDup_fst_map_to_list. Qed.

Lemma by_rank_empty : by_rank ∅ = [].
Proof. unfold by_rank. by rewrite map_to_list_empty. Qed.




Section properties.
Context {rt : Runtime}.

(** [setKey] reads the clock once and then is HSETNX. *)
Lemma setKey_unfold hostname k url title w :
  setKey hostname k url title w =
  let w1 := mkWorld (db w) (S (ticks w)) (draws w) in
  match as_hash (db w) (links_name hostname) with
  | inl e => (Throws e, w1)
  | inr h =>
      if has_field h k then (Returns (Int 0), w1)
      else (Returns (Int 1),
            mkWorld (<[links_name hostname :=
                         RHash (<[k := mkLink url
                                         (if truthy title then default "" title
                                          else getTitleFromUrl url)
                                         (Date_now (ticks w))]> h)]> (db w))
                    (S (ticks w)) (draws w))
  end.
Proof.
  unfold setKey, bind, now, redis, HSETNX; simpl.
  destruct (as_hash _ _) as [e|h]; [done|].
  destruct (has_field h k); [done|]. by rewrite put_hash_insert.
Qed.

(** What one successful [setKey] does to the collections. *)
Lemma setKey_created hostname k url title w r w' :
  setKey hostname k url title w = (Returns r, w') →
  r ≠ Int 0 →
  r = Int 1 ∧
  links_of (db w) hostname !! k = None ∧
  links_of (db w') hostname =
    <[k := mkLink url (if truthy title then default "" title else getTitleFromUrl url)
                  (Date_now (ticks w))]> (links_of (db w) hostname) ∧
  (∀ name, name ≠ links_name hostname → db w' !! name = db w !! name) ∧
  (∀ name, zset_at (db w') name = zset_at (db w) name) ∧
  ticks w' = S (ticks w) ∧ draws w' = draws w.
Proof.
  rewrite setKey_unfold. cbv zeta.
  destruct (as_hash _ _) as [e|h] eqn:Hh; [done|].
  unfold has_field. destruct (h !! k) eqn:Hk; intros [= <- <-] Hr; [done|].
  rewrite (as_hash_links_of _ _ _ Hh). simpl. split_and!; try done.
  - unfold links_of. by rewrite lookup_insert_eq.
  - intros name Hne. by rewrite lookup_insert_ne.
  - intros name. rewrite <- (put_hash_insert (db w)). by eapply zset_at_put_hash.
Qed.

(** A [setKey] that finds the key changes nothing but the clock. *)
Lemma setKey_collision hostname k url title w w' :
  setKey hostname k url title w = (Returns (Int 0), w') →
  is_Some (links_of (db w) hostname !! k) ∧
  w' = mkWorld (db w) (S (ticks w)) (draws w).
Proof.
  rewrite setKey_unfold. cbv zeta.
  destruct (as_hash _ _) as [e|h] eqn:Hh; [done|].
  rewrite (as_hash_links_of _ _ _ Hh).
  unfold has_field. destruct (h !! k) eqn:Hk; intros Hr; simplify_eq. eauto.
Qed.

(** [setRandomKey] returns the first candidate that [links[hostname]]
    lacks, with the record stored under it; every record that was there
    and every sorted set stays. *)
Lemma setRandomKey_returns fuel hostname url title w rk w' :
  setRandomKey fuel hostname url title w = (Returns rk, w') →
  response rk = Int 1 ∧
  links_of (db w) hostname !! key rk = None ∧
  (∃ t, links_of (db w') hostname =
        <[key rk := mkLink url (if truthy title then default "" title
                                else getTitleFromUrl url) t]>
          (links_of (db w) hostname)) ∧
  (∃ i, key rk = nanoid i) ∧
  (∀ name, name ≠ links_name hostname → db w' !! name = db w !! name) ∧
  (∀ name, zset_at (db w') name = zset_at (db w) name).
Proof.
  revert w. induction fuel as [|fuel IH]; intros w; [done|].
  simpl. unfold bind at 1. unfold draw at 1. unfold bind at 1.
  destruct (setKey _ _ _ _ _) as [[r| |] w1] eqn:Hset; try done.
  destruct (decide (r = Int 0)) as [->|Hr].
  - apply setKey_collision in Hset as [_ ->]. intros Hrec.
    by apply IH in Hrec.
  - intros [= <- <-]. apply setKey_created in Hset as (-> & ? & ? & ? & ? & _); [|done].
    simpl in *. split_and!; eauto.
Qed.

(** Whatever [setKey] answers, it touches nothing but the field [k] of
    [links[hostname]], and only when that field was not there. *)
Lemma setKey_frame hostname k url title w r w' :
  setKey hostname k url title w = (r, w') →
  (∀ name, name ≠ links_name hostname → db w' !! name = db w !! name) ∧
  (∀ name, zset_at (db w') name = zset_at (db w) name) ∧
  (∀ k' v, links_of (db w) hostname !! k' = Some v →
           links_of (db w') hostname !! k' = Some v) ∧
  (∀ e, r = Throws e → as_hash (db w) (links_name hostname) = inl e) ∧
  r ≠ OutOfFuel.
Proof.
  destruct r as [r|e|].
  - destruct (decide (r = Int 0)) as [->|Hr]; intros Hset.
    + apply setKey_collision in Hset as [_ ->]. by simpl.
    + apply setKey_created in Hset as (_ & Hk & Hl & ? & ? & _); [|done].
      split_and!; try done. intros k' v Hv. rewrite Hl.
      rewrite lookup_insert_ne; [done|]. congruence.
  - rewrite setKey_unfold. cbv zeta.
    destruct (as_hash _ _) as [e'|h]; [|by destruct (has_field h k)].
    intros [= <- <-]. simpl. split_and!; try done. by intros ? [= <-].
  - rewrite setKey_unfold. cbv zeta.
    destruct (as_hash _ _) as [e'|h]; [done|by destruct (has_field h k)].
Qed.

Lemma setRandomKey_frame fuel hostname url title w r w' :
  setRandomKey fuel hostname url title w = (r, w') →
  (∀ name, name ≠ links_name hostname → db w' !! name = db w !! name) ∧
  (∀ name, zset_at (db w') name = zset_at (db w) name) ∧
  (∀ k v, links_of (db w) hostname !! k = Some v →
          links_of (db w') hostname !! k = Some v) ∧
  (∀ e, r = Throws e → as_hash (db w) (links_name hostname) = inl e).
Proof.
  revert w. induction fuel as [|fuel IH]; intros w.
  { intros [= <- <-]. done. }
  simpl. unfold bind at 1. unfold draw at 1. unfold bind at 1.
  destruct (setKey _ _ _ _ _) as [[r0|e0|] w1] eqn:Hset.
  - destruct (decide (r0 = Int 0)) as [->|Hr].
    + apply setKey_collision in Hset as [_ ->]. intros Hrec.
      by apply IH in Hrec.
    + intros [= <- <-]. apply setKey_frame in Hset as (? & ? & ? & _). done.
  - intros [= <- <-]. apply setKey_frame in Hset as (? & ? & ? & He & _).
    split_and!; try done. intros e [= <-]. by apply He.
  - by apply setKey_frame in Hset as (_ & _ & _ & _ & ?).
Qed.

(** [setRandomKey] returns as soon as a candidate is free: with the
    candidate [i] draws ahead free and more fuel than [i], it returns. *)
Lemma setRandomKey_terminates i fuel hostname url title w h :
  (i < fuel)%nat →
  as_hash (db w) (links_name hostname) = inr h →
  h !! nanoid (draws w + i) = None →
  ∃ rk w', setRandomKey fuel hostname url title w = (Returns rk, w').
Proof.
  revert fuel w. induction i as [|i IH]; intros fuel w Hfuel Hh Hfree;
    (destruct fuel as [|fuel]; [lia|]);
    simpl; unfold bind at 1; unfold draw at 1; unfold bind at 1;
    rewrite setKey_unfold; cbv zeta; cbn [db ticks draws]; rewrite Hh;
    unfold has_field.
  - rewrite Nat.add_0_r in Hfree. rewrite Hfree.
    destruct (decide (Int 1 = Int 0)); [done|]. unfold ret. eauto.
  - destruct (h !! nanoid (draws w)) eqn:Hk.
    + destruct (decide (Int 0 = Int 0)); [|done].
      apply (IH fuel); [lia|done|]. cbn [draws].
      by replace (S (draws w) + i)%nat with (draws w + S i)%nat by lia.
    + destruct (decide (Int 1 = Int 0)); [done|]. unfold ret. eauto.
Qed.

(** With no key supplied [addLink] is [setRandomKey] followed by
    [return null]. *)
Lemma addLink_random_unfold fuel hostname url k title userId w :
  truthy k = false →
  addLink fuel hostname url k title userId w =
  match setRandomKey fuel hostname url title w with
  | (Returns _, w') => (Returns None, w')
  | (Throws e, w') => (Throws e, w')
  | (OutOfFuel, w') => (OutOfFuel, w')
  end.
Proof.
  intros Hk. unfold addLink. rewrite Hk, andb_false_r. simpl.
  unfold bind, ret. by destruct (setRandomKey _ _ _ _ _) as [[?| |] ?].
Qed.

(** [getUsage] when the cache answers nothing it can use: it counts,
    stores the count for an hour and returns it. *)
Lemma getUsage_miss hostname billingCycleStart w cachedUsage z :
  GET (usage_name hostname) (db w) = inr cachedUsage →
  cached cachedUsage = None →
  as_zset (db w) (timestamps_name hostname None) = inr z →
  (∀ k, is_Some (z !! k) → ∃ c, as_zset (db w) (clicks_name hostname k) = inr c) →
  let usage := keyed_clicks (db w) hostname
                 (window_at billingCycleStart (Date_now (ticks w))) in
  getUsage hostname billingCycleStart w =
  (Returns usage,
   mkWorld (<[usage_name hostname := RNumber usage 3600]> (db w)) (S (ticks w)) (draws w)).
Proof.
  intros Hget Hmiss Hz Htyped usage. unfold getUsage.
  unfold bind at 1. unfold redis_read at 1. rewrite Hget, Hmiss.
  assert (billing_window billingCycleStart w =
          (Returns (window_at billingCycleStart (Date_now (ticks w))),
           mkWorld (db w) (S (ticks w)) (draws w))) as Hwin.
  { by destruct billingCycleStart. }
  unfold bind at 1. rewrite Hwin.
  unfold bind at 1. unfold redis_read at 1, ZRANGE. cbn [db]. rewrite Hz.
  set (window := window_at billingCycleStart (Date_now (ticks w))) in *.
  assert (Hkeys : ∀ k, k ∈ by_rank z → ∃ c, as_zset (db w) (clicks_name hostname k) = inr c).
  { intros k Hk. by apply Htyped, elem_of_by_rank. }
  assert (usage = foldr Z.add 0
            ((λ k, count_in_range window.1 window.2 (clicks_of (db w) hostname k))
               <$> by_rank z)) as Husage.
  { unfold usage, keyed_clicks, timestamps_of. by rewrite (as_zset_zset_at _ _ _ Hz). }
  unfold bind at 1.
  destruct (decide (by_rank z = [])) as [Hnil|Hcons].
  - unfold ret at 1. unfold bind, redis, SETEX, ret. cbn [db ticks draws set_db].
    rewrite Hnil in Husage. simpl in Husage. by rewrite Husage.
  - rewrite pipeline_exec_nonempty by (by intros ?%fmap_nil_inv).
    rewrite (run_zcounts _ _ _ _ _ Hkeys), first_failure_Int.
    rewrite sum_replies_Int, <- Husage.
    unfold bind, redis, SETEX, ret. done.
Qed.

(** [getRandomKey] returns the first candidate that [links[hostname]]
    lacks, and writes nothing. *)
Lemma getRandomKey_returns fuel hostname w k w' :
  getRandomKey fuel hostname w = (Returns k, w') →
  links_of (db w) hostname !! k = None ∧ (∃ i, k = nanoid i) ∧ db w' = db w.
Proof.
  revert w. induction fuel as [|fuel IH]; intros w; [done|].
  simpl. unfold bind at 1. unfold draw at 1. unfold bind at 1.
  unfold redis at 1, HEXISTS. cbn [db].
  destruct (as_hash _ _) as [e|h] eqn:Hh; [done|].
  unfold set_db. cbn [db ticks draws].
  unfold has_field. destruct (h !! nanoid (draws w)) eqn:Hk; simpl.
  - intros Hrec. by apply IH in Hrec.
  - intros [= <- <-]. rewrite (as_hash_links_of _ _ _ Hh). eauto.
Qed.



(** ** The properties of the specification *)

(** C2, as the code has it.  A create that succeeds ([addLink] returns
    the reply of ZADD, not [null]) was given a key; the record is stored
    in [links[hostname]] under that key with the clock reading of
    [setKey] as its timestamp, and the key is added to one index, the one
    the call's [userId] selects ([links:timestamps[hostname]] without a
    user, [links:timestamps[hostname]:userId] with one), at the score of
    the next clock reading; nothing else changes.  Hence, if every key of
    [links[hostname]] was a member of that index before the call, it is
    one after it. *)
Theorem addLink_success_indexes_key fuel hostname url k title userId w r w' :
  addLink fuel hostname url k title userId w = (Returns (Some r), w') →
  ∃ k0, k = Some k0 ∧ k0 ≠ "" ∧
    links_of (db w) hostname !! k0 = None ∧
    links_of (db w') hostname =
      <[k0 := mkLink url (if truthy title then default "" title else getTitleFromUrl url)
                     (Date_now (ticks w))]> (links_of (db w) hostname) ∧
    timestamps_of (db w') hostname userId =
      <[k0 := Date_now (S (ticks w))]> (timestamps_of (db w) hostname userId) ∧
    (∀ name, name ≠ links_name hostname → name ≠ timestamps_name hostname userId →
             db w' !! name = db w !! name) ∧
    ((∀ k', is_Some (links_of (db w) hostname !! k') →
            is_Some (timestamps_of (db w) hostname userId !! k')) →
     (∀ k', is_Some (links_of (db w') hostname !! k') →
            is_Some (timestamps_of (db w') hostname userId !! k'))).
Proof.
  destruct (truthy k) eqn:Ht.
  2:{ rewrite addLink_random_unfold by done.
      by destruct (setRandomKey _ _ _ _ _) as [[?| |] ?]. }
  destruct k as [k0|]; [|done].
  assert (k0 ≠ "") as Hne by (by intros ->).
  unfold addLink. rewrite Ht. simpl default.
  destruct (_ && _ && _); [done|].
  unfold bind at 1. unfold bind at 1.
  destruct (setKey _ _ _ _ _) as [[r0|e0|] w1] eqn:Hset; try done.
  unfold ret at 1. destruct (is_one (inl r0)) eqn:Hone; [|done].
  assert (r0 ≠ Int 0) as Hr0 by (by intros ->).
  apply setKey_created in Hset as (_ & Hnone & Hl & Hfr & Hz & Hticks & _); [|done].
  unfold bind at 1. unfold now at 1. unfold bind at 1.
  destruct (redis _ _) as [[r1|e1|] w2] eqn:Hadd; try done.
  intros [= <- <-].
  apply redis_ZADD in Hadd as (z & Hzs & _ & ->). simpl in *.
  apply as_zset_zset_at in Hzs. rewrite Hz in Hzs.
  assert (Hlinks : links_of (<[timestamps_name hostname userId :=
                                 RZSet (<[k0 := Date_now (ticks w1)]> z)]> (db w1)) hostname
                   = links_of (db w1) hostname).
  { unfold links_of. rewrite lookup_insert_ne; [done|].
    intros E. by apply (links_name_ne_timestamps hostname userId). }
  assert (Hts : timestamps_of (<[timestamps_name hostname userId :=
                                 RZSet (<[k0 := Date_now (ticks w1)]> z)]> (db w1))
                   hostname userId = <[k0 := Date_now (S (ticks w))]> z).
  { unfold timestamps_of, zset_at. by rewrite lookup_insert_eq, Hticks. }
  exists k0. rewrite Hlinks, Hts, Hl. unfold timestamps_of. rewrite Hzs.
  split_and!; try done.
  - intros name Hn1 Hn2. rewrite lookup_insert_ne by done. by apply Hfr.
  - intros Hinv k' Hk'. destruct (decide (k' = k0)) as [->|Hk].
    + rewrite lookup_insert_eq. eauto.
    + rewrite lookup_insert_ne in Hk' by done. rewrite lookup_insert_ne by done.
      by apply Hinv.
Qed.

(** C3.  With no key supplied ([key] undefined or empty), [addLink] is
    the random-key path.  As soon as one of the candidates the generator
    draws is free in [links[hostname]], [setRandomKey] creates the record
    (it resolves to [{ response: 1, key }], an object, of which
    [response === 1] is false, and the record is in [links[hostname]]),
    and [addLink] returns [null] in that very state: no sorted set, so no
    [links:timestamps] index, has gained a member. *)
Theorem addLink_random_key_returns_null i fuel hostname url k title userId w h :
  truthy k = false →
  (i < fuel)%nat →
  as_hash (db w) (links_name hostname) = inr h →
  h !! nanoid (draws w + i) = None →
  ∃ rk w',
    setRandomKey fuel hostname url title w = (Returns rk, w') ∧
    addLink fuel hostname url k title userId w = (Returns None, w') ∧
    is_one (inr rk) = false ∧
    response rk = Int 1 ∧
    links_of (db w) hostname !! key rk = None ∧
    is_Some (links_of (db w') hostname !! key rk) ∧
    (∀ name, zset_at (db w') name = zset_at (db w) name) ∧
    (∀ uid, timestamps_of (db w') hostname uid = timestamps_of (db w) hostname uid).
Proof.
  intros Hk Hfuel Hh Hfree.
  destruct (setRandomKey_terminates i fuel hostname url title w h Hfuel Hh Hfree)
    as (rk & w' & Hrec).
  exists rk, w'. rewrite addLink_random_unfold, Hrec by done.
  apply setRandomKey_returns in Hrec as (? & ? & [t Hl] & _ & _ & Hz).
  split_and!; try done.
  - rewrite Hl, lookup_insert_eq. eauto.
  - intros uid. apply Hz.
Qed.

(** C4, as the code has it.  An edit to another key that is neither
    reserved nor taken is one pipelined batch, in this order: HDEL of the
    old key, HSET of the new key with the [{ url, title, timestamp }]
    passed to the call, ZREM of the old key from the index the call's
    [userId] selects, ZADD of the new key to it at score [timestamp],
    and, exactly when the click log of the old key has a member, RENAME
    of that log to the new key.  After it the old key is gone from
    [links[hostname]], from the selected index and from
    [clicks[hostname]]; every other index of the hostname is as it was,
    so the old key is gone from every index only when it was in no other
    one.  The new key has the field values passed to the call and the
    score passed to it: the record is the old one under its new key only
    when the call passes the field values of the old record.  The click
    log, if there was one, is under the new key with its contents;
    [root:clicks[hostname]] and every other name are as they were. *)
Theorem editLink_renames_key hostname k newKey url title timestamp userId w h z c :
  k ≠ newKey →
  reserved hostname newKey = false →
  as_hash (db w) (links_name hostname) = inr h →
  h !! newKey = None →
  as_zset (db w) (timestamps_name hostname userId) = inr z →
  as_zset (db w) (clicks_name hostname k) = inr c →
  ∃ rs d',
    editLink hostname k newKey url title timestamp userId w
      = (Returns (Renamed rs), set_db d' w) ∧
    run_batch
      ([ hdel (links_name hostname) k;
         hset (links_name hostname) newKey (mkLink url title timestamp);
         zrem (timestamps_name hostname userId) k;
         zadd (timestamps_name hostname userId) timestamp newKey ] ++
       (if decide (c = ∅) then []
        else [ rename (clicks_name hostname k) (clicks_name hostname newKey) ]))
      (db w) = (rs, d') ∧
    links_of d' hostname = <[newKey := mkLink url title timestamp]> (delete k h) ∧
    (h !! k = Some (mkLink url title timestamp) →
     links_of d' hostname !! newKey = h !! k) ∧
    timestamps_of d' hostname userId = <[newKey := timestamp]> (delete k z) ∧
    ((∀ uid, timestamps_name hostname uid ≠ timestamps_name hostname userId →
             timestamps_of (db w) hostname uid !! k = None) →
     ∀ uid, timestamps_of d' hostname uid !! k = None) ∧
    (∀ uid, timestamps_name hostname uid ≠ timestamps_name hostname userId →
            timestamps_of d' hostname uid = timestamps_of (db w) hostname uid) ∧
    clicks_of d' hostname k = ∅ ∧
    clicks_of d' hostname newKey
      = (if decide (c = ∅) then clicks_of (db w) hostname newKey else c) ∧
    root_clicks_of d' hostname = root_clicks_of (db w) hostname ∧
    (∀ name, name ≠ links_name hostname →
             name ≠ timestamps_name hostname userId →
             name ≠ clicks_name hostname k →
             name ≠ clicks_name hostname newKey →
             d' !! name = db w !! name).
Proof.
  intros Hne Hres Hh Hnew Hz Hc. destruct w as [d t n]. simpl in *.
  pose proof (links_name_ne_timestamps hostname userId) as HLT.
  pose proof (links_name_ne_clicks hostname k) as HLC.
  pose proof (links_name_ne_clicks hostname newKey) as HLC'.
  pose proof (timestamps_name_ne_clicks hostname userId k) as HTC.
  pose proof (timestamps_name_ne_clicks hostname userId newKey) as HTC'.
  assert (clicks_name hostname k ≠ clicks_name hostname newKey) as HCC.
  { intros E. by apply clicks_name_inj in E. }
  set (v := mkLink url title timestamp).
  set (d4 := <[timestamps_name hostname userId := RZSet (<[newKey := timestamp]> (delete k z))]>
               (<[links_name hostname := RHash (<[newKey := v]> (delete k h))]> d)).
  assert (Hbatch : editLink_batch hostname k newKey url title timestamp userId
                     (Int (Z.of_nat (size c)))
                   = [ hdel (links_name hostname) k;
                       hset (links_name hostname) newKey v;
                       zrem (timestamps_name hostname userId) k;
                       zadd (timestamps_name hostname userId) timestamp newKey ] ++
                     (if decide (c = ∅) then []
                      else [ rename (clicks_name hostname k) (clicks_name hostname newKey) ])).
  { unfold editLink_batch, positive. f_equal. destruct (decide (c = ∅)) as [->|Hcne].
    - by rewrite map_size_empty.
    - apply map_size_non_empty_iff in Hcne.
      destruct (Z.ltb_spec 0 (Z.of_nat (size c))); [done|lia]. }
  assert (HL4 : d4 !! links_name hostname = Some (RHash (<[newKey := v]> (delete k h)))).
  { unfold d4. rewrite lookup_insert_ne by done. by rewrite lookup_insert_eq. }
  assert (HT4 : d4 !! timestamps_name hostname userId
                = Some (RZSet (<[newKey := timestamp]> (delete k z)))).
  { unfold d4. by rewrite lookup_insert_eq. }
  assert (Hfr4 : ∀ name, name ≠ links_name hostname →
                         name ≠ timestamps_name hostname userId → d4 !! name = d !! name).
  { intros name H1 H2. unfold d4. by rewrite !lookup_insert_ne. }
  assert (Hrun : ∃ rs d',
             run_batch (editLink_batch hostname k newKey url title timestamp userId
                          (Int (Z.of_nat (size c)))) d = (rs, d') ∧
             first_failure 0 rs = None ∧
             d' = (if decide (c = ∅) then d4
                   else <[clicks_name hostname newKey := RZSet c]>
                          (delete (clicks_name hostname k) d4))).
  { rewrite Hbatch, run_batch_app.
    rewrite (run_rename_key d _ _ k newKey v timestamp h z HLT Hh Hz). fold d4.
    destruct (decide (c = ∅)) as [->|Hcne]; simpl.
    - eexists _, _. split; [done|]. done.
    - unfold RENAME. rewrite Hfr4 by done.
      unfold as_zset in Hc. destruct (d !! clicks_name hostname k) as [[| |]|] eqn:Hck;
        simplify_eq; try done.
      eexists _, _. split; [done|]. done. }
  destruct Hrun as (rs & d' & Hrun & Hok & Hd').
  exists rs, d'. subst v.
  assert (Hroot : d' !! root_clicks_name hostname = d !! root_clicks_name hostname).
  { rewrite Hd'. destruct (decide (c = ∅)).
    - apply Hfr4; [apply root_clicks_name_ne_links|apply root_clicks_name_ne_timestamps].
    - rewrite lookup_insert_ne by (apply not_eq_sym, root_clicks_name_ne_clicks).
      rewrite lookup_delete_ne by (apply not_eq_sym, root_clicks_name_ne_clicks).
      apply Hfr4; [apply root_clicks_name_ne_links|apply root_clicks_name_ne_timestamps]. }
  split_and!.
  - unfold editLink. apply String.eqb_neq in Hne. rewrite Hne, Hres.
    unfold bind at 1. unfold checkIfKeyExists. rewrite Hres.
    unfold redis at 1, HEXISTS. cbn [db]. rewrite Hh.
    replace (has_field h newKey) with false by (unfold has_field; by rewrite Hnew).
    unfold set_db. cbn [bool_to_Z db ticks draws].
    destruct (decide (Int 0 = Int 1)) as [|_]; [done|].
    unfold bind at 1. unfold redis at 1, ZCARD. cbn [db]. rewrite Hc.
    unfold set_db. cbn [db ticks draws].
    unfold bind at 1. rewrite pipeline_exec_nonempty by done.
    cbn [db]. rewrite Hrun, Hok. done.
  - rewrite Hbatch in Hrun. exact Hrun.
  - unfold links_of. rewrite Hd'. destruct (decide (c = ∅)).
    + by rewrite HL4.
    + rewrite lookup_insert_ne, lookup_delete_ne by done. by rewrite HL4.
  - intros ->. unfold links_of. rewrite Hd'. destruct (decide (c = ∅)).
    + by rewrite HL4, lookup_insert_eq.
    + rewrite lookup_insert_ne, lookup_delete_ne by done.
      by rewrite HL4, lookup_insert_eq.
  - unfold timestamps_of, zset_at. rewrite Hd'. destruct (decide (c = ∅)).
    + by rewrite HT4.
    + rewrite lookup_insert_ne, lookup_delete_ne by done. by rewrite HT4.
  - intros Hother uid.
    destruct (decide (timestamps_name hostname uid = timestamps_name hostname userId))
      as [E|Huid].
    + unfold timestamps_of, zset_at. rewrite E, Hd'. destruct (decide (c = ∅)).
      * rewrite HT4, lookup_insert_ne by done. by rewrite lookup_delete_eq.
      * rewrite lookup_insert_ne, lookup_delete_ne by done.
        rewrite HT4, lookup_insert_ne by done. by rewrite lookup_delete_eq.
    + rewrite <- (Hother uid Huid). unfold timestamps_of. f_equal.
      apply zset_at_lookup.
      pose proof (links_name_ne_timestamps hostname uid).
      pose proof (timestamps_name_ne_clicks hostname uid k).
      pose proof (timestamps_name_ne_clicks hostname uid newKey).
      rewrite Hd'. destruct (decide (c = ∅)).
      * by apply Hfr4.
      * rewrite lookup_insert_ne, lookup_delete_ne by done. by apply Hfr4.
  - intros uid Huid. unfold timestamps_of. apply zset_at_lookup.
    pose proof (links_name_ne_timestamps hostname uid).
    pose proof (timestamps_name_ne_clicks hostname uid k).
    pose proof (timestamps_name_ne_clicks hostname uid newKey).
    rewrite Hd'. destruct (decide (c = ∅)).
    + by apply Hfr4.
    + rewrite lookup_insert_ne, lookup_delete_ne by done. by apply Hfr4.
  - unfold clicks_of, zset_at. rewrite Hd'. destruct (decide (c = ∅)) as [->|].
    + rewrite Hfr4 by done. apply as_zset_zset_at in Hc. by unfold zset_at in Hc.
    + rewrite lookup_insert_ne by done. by rewrite lookup_delete_eq.
  - unfold clicks_of, zset_at. rewrite Hd'. destruct (decide (c = ∅)).
    + by rewrite Hfr4.
    + by rewrite lookup_insert_eq.
  - unfold root_clicks_of. by apply zset_at_lookup.
  - intros name H1 H2 H3 H4. rewrite Hd'. destruct (decide (c = ∅)).
    + by apply Hfr4.
    + rewrite lookup_insert_ne, lookup_delete_ne by done. by apply Hfr4.
Qed.

(** C5.  [changeDomain(H, H2)] followed by [changeDomain(H2, H)] leaves
    the world as it was: [links], [links:timestamps], [root:clicks] and
    every click log, and every other name of the database, hold what they
    held.  This is for hostnames whose namespaces are apart (no name of
    one is a name of the other, as for any two different hostnames
    without a colon) and a new hostname that is unused.  In between, the
    collections are under the new hostname: each collection the first
    call renames is bound there to what it held and is free under the old
    hostname. *)
Theorem changeDomain_round_trip hostname newHostname w :
  apart hostname newHostname = true →
  unused (db w) newHostname →
  ∃ w1,
    (changeDomain hostname newHostname w).2 = w1 ∧
    (changeDomain newHostname hostname w1).2 = w ∧
    (∀ z c, as_zset (db w) (timestamps_name hostname None) = inr z →
            c ∈ migrated (by_rank z) →
            db w1 !! name_of newHostname c = db w !! name_of hostname c ∧
            db w1 !! name_of hostname c = None).
Proof.
  intros Hapart Hunused. eexists. split; [done|].
  assert (Hfree : ∀ keys p,
            p ∈ (λ c, (name_of hostname c, name_of newHostname c)) <$> migrated keys →
            db w !! p.2 = None).
  { intros keys p [c [-> _]]%list_elem_of_fmap. simpl.
    apply (unused_lookup _ newHostname); [done|apply namespace_name_of]. }
  assert (Hnodup : ∀ z : gmap string Z,
            NoDup (names ((λ c, (name_of hostname c, name_of newHostname c))
                            <$> migrated (by_rank z)))).
  { intros z. apply NoDup_names_fmap; try apply _.
    - intros c1 c2. by apply apart_name_of.
    - apply NoDup_migrated, NoDup_by_rank. }
  rewrite (changeDomain_db hostname newHostname w).
  destruct (as_zset (db w) (timestamps_name hostname None)) as [e|z] eqn:Hz.
  - (* the index of the old hostname cannot be read: nothing moves *)
    split; [|done]. rewrite changeDomain_db.
    assert (as_zset (db w) (timestamps_name newHostname None) = inr ∅) as ->.
    { unfold as_zset. change (timestamps_name newHostname None)
        with (name_of newHostname Timestamps).
      by rewrite (unused_lookup _ newHostname _ Hunused (namespace_name_of _ Timestamps)). }
    rewrite by_rank_empty, move_all_absent; [by destruct w|].
    intros p [c [-> _]]%list_elem_of_fmap. simpl.
    apply (unused_lookup _ newHostname); [done|apply namespace_name_of].
  - set (pairs := (λ c, (name_of hostname c, name_of newHostname c))
                    <$> migrated (by_rank z)).
    assert (Hin : ∀ c, c ∈ migrated (by_rank z) →
                       (name_of hostname c, name_of newHostname c) ∈ pairs).
    { intros c Hc. unfold pairs. apply list_elem_of_fmap. by exists c. }
    assert (Hdst : ∀ c, c ∈ migrated (by_rank z) →
                        move_all pairs (db w) !! name_of newHostname c
                        = db w !! name_of hostname c).
    { intros c Hc. apply lookup_move_all_dst; [apply Hnodup|by apply Hin|].
      apply (Hfree (by_rank z) (name_of hostname c, name_of newHostname c)), Hin, Hc. }
    split.
    + rewrite changeDomain_db. cbn [db set_db].
      assert (as_zset (move_all pairs (db w)) (timestamps_name newHostname None) = inr z)
        as ->.
      { rewrite <- Hz. apply as_zset_moved.
        apply (Hdst Timestamps). unfold migrated. apply elem_of_app. left.
        apply elem_of_cons. right. by left. }
      replace ((λ c, (name_of newHostname c, name_of hostname c)) <$> migrated (by_rank z))
        with (prod_swap <$> pairs).
      2:{ unfold pairs. rewrite <- list_fmap_compose. by apply list_fmap_ext. }
      rewrite move_all_back; [by destruct w|apply Hnodup|apply Hfree].
    + intros z' c [= <-] Hc. cbn [db set_db]. split; [by apply Hdst|].
      eapply lookup_move_all_src; [apply Hnodup|by apply Hin|].
      apply (Hfree (by_rank z) (name_of hostname c, name_of newHostname c)), Hin, Hc.
Qed.

(** X1.  When [getUsage] finds no cache entry it can use (none, or a
    cached 0), it returns the number of click events, scored within the
    window it computes, of [clicks[hostname][key]] summed over the keys
    of [links:timestamps[hostname]], and stores it under
    [usage[hostname]] for 3600 seconds; what [root:clicks[hostname]]
    holds plays no part: in any database that differs from this one at
    that name only, the call returns the same number.  For a hostname
    with one key whose recorded clicks are all within the window, it
    returns the number of those clicks.  The window is from the start of
    the billing cycle to the clock reading, or, with no cycle given, from
    [new Date(y, m, 1)] to [new Date(y, m + 1, 0)]. *)
Theorem getUsage_sums_keyed_clicks hostname billingCycleStart w cachedUsage z :
  GET (usage_name hostname) (db w) = inr cachedUsage →
  cached cachedUsage = None →
  as_zset (db w) (timestamps_name hostname None) = inr z →
  (∀ k, is_Some (z !! k) → plain k = true) →
  (∀ k, is_Some (z !! k) → ∃ c, as_zset (db w) (clicks_name hostname k) = inr c) →
  ∃ usage w',
    getUsage hostname billingCycleStart w = (Returns usage, w') ∧
    usage = keyed_clicks (db w) hostname
              (window_at billingCycleStart (Date_now (ticks w))) ∧
    db w' = <[usage_name hostname := RNumber usage 3600]> (db w) ∧
    (∀ d, (∀ name, name ≠ root_clicks_name hostname → d !! name = db w !! name) →
          (getUsage hostname billingCycleStart (set_db d w)).1 = Returns usage) ∧
    (∀ k, by_rank z = [k] →
          map_Forall (λ _ score,
                        in_range (window_at billingCycleStart (Date_now (ticks w))).1
                                 (window_at billingCycleStart (Date_now (ticks w))).2
                                 score = true)
                     (clicks_of (db w) hostname k) →
          usage = Z.of_nat (size (clicks_of (db w) hostname k))).
Proof.
  intros Hget Hmiss Hz _ Htyped. eexists _, _.
  split; [by eapply getUsage_miss|]. split; [done|]. split; [done|]. split.
  2:{ intros k Hk Hall. unfold keyed_clicks, timestamps_of.
      rewrite (as_zset_zset_at _ _ _ Hz), Hk. simpl.
      rewrite count_in_range_all by done. lia. }
  - intros d Hd.
    assert (usage_name hostname ≠ root_clicks_name hostname) as Hur.
    { intros E. apply (f_equal String.length) in E.
      unfold usage_name, root_clicks_name in E. rewrite !append_length in E.
      simpl in E. lia. }
    erewrite getUsage_miss.
    + simpl. f_equal. unfold keyed_clicks, timestamps_of, clicks_of.
      rewrite (zset_at_lookup (db w) d)
        by (apply Hd, not_eq_sym, root_clicks_name_ne_timestamps).
      f_equal. apply list_fmap_ext. intros _ k _. f_equal.
      apply zset_at_lookup, Hd, not_eq_sym, root_clicks_name_ne_clicks.
    + simpl. unfold GET. rewrite Hd by done. exact Hget.
    + done.
    + simpl. rewrite (as_zset_lookup (db w) d)
        by (apply Hd, not_eq_sym, root_clicks_name_ne_timestamps). exact Hz.
    + simpl. intros k Hk. destruct (Htyped k Hk) as [c Hc]. exists c.
      rewrite (as_zset_lookup (db w) d)
        by (apply Hd, not_eq_sym, root_clicks_name_ne_clicks). exact Hc.
Qed.

(** C7.  Creating a link under a key that [links[hostname]] already holds
    fails: [addLink] returns [null], the record stored under the key is
    the one that was there, and so is every other record that was there;
    no sorted set changes, so no timestamp index gains a member.  For a
    key that counts as supplied (any but the empty string) the database
    is left exactly as it was.  (The empty string counts as no key: the
    call then takes the random-key path, which returns [null] as well, or
    keeps drawing for as long as every candidate collides.) *)
Theorem addLink_existing_key_fails fuel hostname url k title userId w record :
  links_of (db w) hostname !! k = Some record →
  ∃ r w', addLink fuel hostname url (Some k) title userId w = (r, w') ∧
    (r = Returns None ∨ (k = "" ∧ r = OutOfFuel)) ∧
    links_of (db w') hostname !! k = Some record ∧
    (∀ k' v, links_of (db w) hostname !! k' = Some v →
             links_of (db w') hostname !! k' = Some v) ∧
    (∀ name, zset_at (db w') name = zset_at (db w) name) ∧
    (∀ uid, timestamps_of (db w') hostname uid = timestamps_of (db w) hostname uid) ∧
    (k ≠ "" → r = Returns None ∧ db w' = db w).
Proof.
  intros Hk.
  assert (Hhash : ∀ e, as_hash (db w) (links_name hostname) ≠ inl e).
  { intros e He. unfold links_of, as_hash in *.
    destruct (db w !! links_name hostname) as [[]|]; by simplify_eq. }
  destruct (truthy (Some k)) eqn:Ht.
  - (* a key was supplied *)
    assert (k ≠ "") as Hne.
    { intros ->. done. }
    unfold addLink. rewrite Ht. simpl default.
    destruct (_ && _ && _); simpl.
    + eexists _, _. split; [done|]. by split_and!; auto.
    + unfold bind at 1. unfold bind at 1.
      destruct (setKey _ _ _ _ _) as [[r0|e0|] w1] eqn:Hset.
      * destruct (decide (r0 = Int 0)) as [->|Hr].
        -- apply setKey_collision in Hset as [_ ->]. simpl.
           eexists _, _. split; [done|]. by split_and!; auto.
        -- apply setKey_created in Hset as (_ & Hnone & _); [|done]. congruence.
      * apply setKey_frame in Hset as (_ & _ & _ & He & _).
        by destruct (Hhash e0); apply He.
      * by apply setKey_frame in Hset as (_ & _ & _ & _ & ?).
  - (* the empty string: the random-key path *)
    assert (k = "") as ->.
    { simpl in Ht. apply negb_false_iff, String.eqb_eq in Ht. done. }
    rewrite addLink_random_unfold by done.
    destruct (setRandomKey _ _ _ _ _) as [r0 w1] eqn:Hrec.
    apply setRandomKey_frame in Hrec as (_ & Hz & Hl & He).
    destruct r0 as [rk|e0|].
    + eexists _, _. split; [done|]. split_and!; auto; [intros uid; apply Hz|by intros []].
    + by destruct (Hhash e0); apply He.
    + eexists _, _. split; [done|]. split_and!; auto; [intros uid; apply Hz|by intros []].
Qed.


(** C9.  An edit that keeps the key ([key === newKey]) is one HSET: the
    record under the key becomes [{ url, title, timestamp }], every other
    record of [links[hostname]] stays, and no sorted set changes: no
    member of any [links:timestamps] index is added, removed or moved to
    another score.  Against a name that holds no hash the call throws and
    leaves the database as it was. *)
Theorem editLink_same_key_frame hostname key url title timestamp userId w :
  ∃ r w', editLink hostname key key url title timestamp userId w = (r, w') ∧
    (∀ name, name ≠ links_name hostname → db w' !! name = db w !! name) ∧
    (∀ name, zset_at (db w') name = zset_at (db w) name) ∧
    (∀ uid, timestamps_of (db w') hostname uid = timestamps_of (db w) hostname uid) ∧
    match as_hash (db w) (links_name hostname) with
    | inr h =>
        r = Returns (Updated (Int (bool_to_Z (negb (has_field h key))))) ∧
        links_of (db w') hostname = <[key := mkLink url title timestamp]> (links_of (db w) hostname)
    | inl e => r = Throws e ∧ w' = w
    end.
Proof.
  unfold editLink. rewrite String.eqb_refl.
  unfold bind, redis, HSET, ret, timestamps_of.
  destruct (as_hash (db w) (links_name hostname)) as [e|h] eqn:Hh; simpl.
  - eexists _, _. split; [done|]. destruct w; simpl. done.
  - eexists _, _. split; [done|]. simpl. split_and!.
    + intros name Hne. by rewrite put_hash_other.
    + intros name. by eapply zset_at_put_hash.
    + intros uid. by eapply zset_at_put_hash.
    + done.
    + rewrite links_of_put_hash. by rewrite (as_hash_links_of _ _ _ Hh).
Qed.

End properties.

(** * The properties at work *)

(** A closed statement that can be decided is settled by running its
    decision procedure. *)
Ltac by_computation := apply (bool_decide_unpack _); vm_compute; exact I.

(** C1, on a server where a word the generator can draw is reserved:
    [setRandomKey] stores a link under the reserved key of ["dub.sh"] and
    [getRandomKey] hands the key out, while [checkIfKeyExists] reports
    the same key as taken and [addLink] refuses it when it is supplied. *)
Theorem setRandomKey_allocates_reserved_key :
  reserved (rt := unlucky) "dub.sh" "pricing" = true ∧
  (setRandomKey (rt := unlucky) 1 "dub.sh" "https://example.com" None empty_world).1
    = Returns (mkRandomKey (Int 1) "pricing") ∧
  is_Some (links_of
             (db (after (setRandomKey (rt := unlucky) 1 "dub.sh" "https://example.com" None)
                    empty_world))
             "dub.sh" !! "pricing") ∧
  (getRandomKey (rt := unlucky) 1 "dub.sh" empty_world).1 = Returns "pricing" ∧
  (checkIfKeyExists (rt := unlucky) "dub.sh" "pricing" empty_world).1 = Returns (Int 1) ∧
  (addLink (rt := unlucky) 1 "dub.sh" "https://example.com" (Some "pricing") None None
     empty_world).1 = Returns None.
Proof. split_and!; by_computation. Qed.

(** C2 fails as stated: a create under a user succeeds and the key is in
    [links["dub.sh"]] and in the index of the user, yet it is no member
    of the primary index [links:timestamps["dub.sh"]]; and its score in
    the index of the user is the clock reading of the ZADD, one second
    after the timestamp of the record. *)
Lemma addLink_with_user_skips_primary_index :
  ∃ w', addLink (rt := october) 0 "dub.sh" "https://example.com" (Some "abc1234") None
          (Some "user1") empty_world = (Returns (Some (Int 1)), w') ∧
        links_of (db w') "dub.sh" !! "abc1234"
          = Some (mkLink "https://example.com" "Title of https://example.com"
                         1664971200000) ∧
        timestamps_of (db w') "dub.sh" (Some "user1") !! "abc1234" = Some 1664971201000 ∧
        timestamps_of (db w') "dub.sh" None !! "abc1234" = None.
Proof.
  exists (after (addLink (rt := october) 0 "dub.sh" "https://example.com" (Some "abc1234")
                   None (Some "user1")) empty_world).
  split_and!; by_computation.
Qed.

(** A second create in the scenario, where ["abc1234"] has its record
    and is a member of the index of the project: ["second1"] gets its
    record with the clock reading of [setKey] as timestamp and joins the
    index at the next reading, and every key of [links["ex.test"]], the
    old one and the new one, is a member of the index afterwards. *)
Lemma addLink_success_indexes_key_witness :
  is_Some (links_of (db ex_test_created) "ex.test" !! "abc1234") ∧
  (∀ k', is_Some (links_of (db ex_test_created) "ex.test" !! k') →
         is_Some (timestamps_of (db ex_test_created) "ex.test" None !! k')) ∧
  ∃ w', addLink (rt := october) 0 "ex.test" "https://example.org" (Some "second1")
          (Some "Second") None ex_test_created = (Returns (Some (Int 1)), w') ∧
        links_of (db w') "ex.test" !! "second1"
          = Some (mkLink "https://example.org" "Second" 1664971202000) ∧
        timestamps_of (db w') "ex.test" None !! "second1" = Some 1664971203000 ∧
        is_Some (links_of (db w') "ex.test" !! "abc1234") ∧
        is_Some (timestamps_of (db w') "ex.test" None !! "abc1234") ∧
        (∀ k', is_Some (links_of (db w') "ex.test" !! k') →
               is_Some (timestamps_of (db w') "ex.test" None !! k')).
Proof.
  assert (is_Some (links_of (db ex_test_created) "ex.test" !! "abc1234")) as Hold
    by by_computation.
  assert (∀ k', is_Some (links_of (db ex_test_created) "ex.test" !! k') →
                is_Some (timestamps_of (db ex_test_created) "ex.test" None !! k')) as Hinv.
  { assert (map_Forall
              (λ k' _, is_Some (timestamps_of (db ex_test_created) "ex.test" None !! k'))
              (links_of (db ex_test_created) "ex.test")) as Hall by by_computation.
    intros k' [v Hv]. exact (Hall k' v Hv). }
  assert (addLink (rt := october) 0 "ex.test" "https://example.org" (Some "second1")
            (Some "Second") None ex_test_created
          = (Returns (Some (Int 1)),
             after (addLink (rt := october) 0 "ex.test" "https://example.org" (Some "second1")
                      (Some "Second") None) ex_test_created)) as Hrun
    by by_computation.
  split; [exact Hold|]. split; [exact Hinv|].
  destruct (addLink_success_indexes_key (rt := october) _ _ _ _ _ _ _ _ _ Hrun)
    as (k0 & Hk & _ & _ & Hl & Ht & _ & Hkeeps).
  injection Hk as <-.
  eexists. split; [exact Hrun|].
  split; [rewrite Hl; by_computation|].
  split; [rewrite Ht; by_computation|].
  split; [rewrite Hl; by_computation|].
  split; [apply (Hkeeps Hinv); rewrite Hl; by_computation|].
  exact (Hkeeps Hinv).
Defined.

(** With no key, on an empty database: the first candidate is free, the
    record is created under it and [addLink] returns [null]. *)
Lemma addLink_random_key_returns_null_witness :
  truthy None = false ∧
  (0 < 1)%nat ∧
  as_hash (db empty_world) (links_name "ex.test") = inr ∅ ∧
  (∅ : gmap string LinkRecord) !! @nanoid october (draws empty_world + 0) = None ∧
  setRandomKey (rt := october) 1 "ex.test" "https://example.com" None empty_world
    = (Returns (mkRandomKey (Int 1) "a1B2c3D"), ex_test_random) ∧
  addLink (rt := october) 1 "ex.test" "https://example.com" None None None empty_world
    = (Returns None, ex_test_random) ∧
  is_Some (links_of (db ex_test_random) "ex.test" !! "a1B2c3D") ∧
  timestamps_of (db ex_test_random) "ex.test" None = ∅.
Proof.
  assert (setRandomKey (rt := october) 1 "ex.test" "https://example.com" None empty_world
          = (Returns (mkRandomKey (Int 1) "a1B2c3D"), ex_test_random)) as Hrun
    by by_computation.
  destruct (addLink_random_key_returns_null (rt := october) 0 1 "ex.test"
              "https://example.com" None None None empty_world ∅
              eq_refl (Nat.lt_0_succ 0) eq_refl eq_refl)
    as (rk & w' & Hrec & Hnull & _ & _ & _ & Hsome & _ & Hts).
  rewrite Hrun in Hrec. injection Hrec as <- <-.
  split; [reflexivity|]. split; [exact (Nat.lt_0_succ 0)|].
  split; [reflexivity|]. split; [reflexivity|].
  split; [exact Hrun|]. split; [exact Hnull|]. split; [exact Hsome|].
  rewrite Hts. by_computation.
Defined.

(** C4 fails as stated: ["abc1234"] was created without a user, so it
    is a member of the index of the project; an edit to ["renamed"] on
    behalf of ["user1"], with another url and title, succeeds, and the
    old key is gone from [links["ex.test"]] yet still a member of
    [links:timestamps["ex.test"]], while the record under the new key is
    not the record the old key had. *)
Lemma editLink_for_user_keeps_key_in_project_index :
  links_of (db ex_test_created) "ex.test" !! "abc1234"
    = Some (mkLink "https://example.com" "Title of https://example.com" 1664971200000) ∧
  reserved (rt := october) "ex.test" "renamed" = false ∧
  links_of (db ex_test_created) "ex.test" !! "renamed" = None ∧
  ∃ rs w', editLink (rt := october) "ex.test" "abc1234" "renamed" "https://example.org"
             "Example" 7 (Some "user1") ex_test_created = (Returns (Renamed rs), w') ∧
    links_of (db w') "ex.test" !! "abc1234" = None ∧
    timestamps_of (db w') "ex.test" None !! "abc1234" = Some 1664971201000 ∧
    links_of (db w') "ex.test" !! "renamed"
      = Some (mkLink "https://example.org" "Example" 7).
Proof.
  split; [by_computation|]. split; [by_computation|]. split; [by_computation|].
  exists [Int 1; Int 1; Int 0; Int 1],
         (after (editLink (rt := october) "ex.test" "abc1234" "renamed" "https://example.org"
                   "Example" 7 (Some "user1")) ex_test_created).
  split_and!; by_computation.
Qed.

(** In the scenario, ["abc1234"] with its three clicks is renamed to
    ["renamed"]: five commands, and the click log follows the key. *)
Lemma editLink_renames_key_witness :
  "abc1234" ≠ "renamed" ∧
  reserved (rt := october) "ex.test" "renamed" = false ∧
  links_of (db ex_test_clicked) "ex.test" !! "renamed" = None ∧
  size (clicks_of (db ex_test_clicked) "ex.test" "abc1234") = 3%nat ∧
  ∃ rs d',
    editLink (rt := october) "ex.test" "abc1234" "renamed" "https://example.org" "Example" 7
      None ex_test_clicked = (Returns (Renamed rs), set_db d' ex_test_clicked) ∧
    length rs = 5%nat ∧
    links_of d' "ex.test" = {[ "renamed" := mkLink "https://example.org" "Example" 7 ]} ∧
    timestamps_of d' "ex.test" None = {[ "renamed" := 7 ]} ∧
    clicks_of d' "ex.test" "abc1234" = ∅ ∧
    clicks_of d' "ex.test" "renamed" = clicks_of (db ex_test_clicked) "ex.test" "abc1234" ∧
    root_clicks_of d' "ex.test" = root_clicks_of (db ex_test_clicked) "ex.test".
Proof.
  assert ("abc1234" ≠ "renamed") as Hne by done.
  assert (reserved (rt := october) "ex.test" "renamed" = false) as Hres by by_computation.
  assert (links_of (db ex_test_clicked) "ex.test" !! "renamed" = None) as Hnew
    by by_computation.
  assert (as_hash (db ex_test_clicked) (links_name "ex.test")
          = inr (links_of (db ex_test_clicked) "ex.test")) as Hh by by_computation.
  assert (as_zset (db ex_test_clicked) (timestamps_name "ex.test" None)
          = inr (timestamps_of (db ex_test_clicked) "ex.test" None)) as Hz by by_computation.
  assert (as_zset (db ex_test_clicked) (clicks_name "ex.test" "abc1234")
          = inr (clicks_of (db ex_test_clicked) "ex.test" "abc1234")) as Hc by by_computation.
  split; [exact Hne|]. split; [exact Hres|]. split; [exact Hnew|].
  split; [by_computation|].
  destruct (editLink_renames_key (rt := october) "ex.test" "abc1234" "renamed"
              "https://example.org" "Example" 7 None ex_test_clicked _ _ _
              Hne Hres Hh Hnew Hz Hc)
    as (rs & d' & Hrun & Hbatch & Hl & _ & Ht & _ & _ & Hc1 & Hc2 & Hr & _).
  exists rs, d'.
  split; [exact Hrun|].
  split; [apply (f_equal fst) in Hbatch; cbn [fst] in Hbatch; rewrite <- Hbatch;
          by_computation|].
  split; [rewrite Hl; by_computation|].
  split; [rewrite Ht; by_computation|].
  split; [exact Hc1|].
  split; [rewrite Hc2; by_computation|].
  exact Hr.
Defined.

(** The scenario moved to ["new.test"] and back. *)
Lemma changeDomain_round_trip_witness :
  apart "ex.test" "new.test" = true ∧
  unused (db ex_test_clicked) "new.test" ∧
  after (changeDomain "new.test" "ex.test")
    (after (changeDomain "ex.test" "new.test") ex_test_clicked) = ex_test_clicked ∧
  links_of (db (after (changeDomain "ex.test" "new.test") ex_test_clicked)) "new.test"
    = links_of (db ex_test_clicked) "ex.test" ∧
  clicks_of (db (after (changeDomain "ex.test" "new.test") ex_test_clicked)) "new.test" "abc1234"
    = clicks_of (db ex_test_clicked) "ex.test" "abc1234" ∧
  links_of (db (after (changeDomain "ex.test" "new.test") ex_test_clicked)) "ex.test" = ∅.
Proof.
  assert (unused (db ex_test_clicked) "new.test") as Hunused by by_computation.
  split; [reflexivity|]. split; [exact Hunused|].
  destruct (changeDomain_round_trip "ex.test" "new.test" ex_test_clicked eq_refl Hunused)
    as (w1 & <- & Hback & _).
  split; [exact Hback|]. split_and!; by_computation.
Defined.

(** The scenario of the specification: three clicks on the key and one
    on the root, counted over October 2022, make a usage of 3. *)
Lemma getUsage_sums_keyed_clicks_witness :
  GET (usage_name "ex.test") (db ex_test_clicked) = inr None ∧
  by_rank (timestamps_of (db ex_test_clicked) "ex.test" None) = ["abc1234"] ∧
  plain "abc1234" = true ∧
  size (clicks_of (db ex_test_clicked) "ex.test" "abc1234") = 3%nat ∧
  size (root_clicks_of (db ex_test_clicked) "ex.test") = 1%nat ∧
  window_at (rt := october) None (@Date_now october (ticks ex_test_clicked))
    = (1664582400000, 1667174400000) ∧
  (getUsage (rt := october) "ex.test" None ex_test_clicked).1 = Returns 3.
Proof.
  assert (GET (usage_name "ex.test") (db ex_test_clicked) = inr None) as Hget
    by by_computation.
  assert (as_zset (db ex_test_clicked) (timestamps_name "ex.test" None)
          = inr (timestamps_of (db ex_test_clicked) "ex.test" None)) as Hz by by_computation.
  assert (by_rank (timestamps_of (db ex_test_clicked) "ex.test" None) = ["abc1234"])
    as Hkeys by by_computation.
  assert (∀ k, is_Some (timestamps_of (db ex_test_clicked) "ex.test" None !! k) →
               plain k = true) as Hplain.
  { intros k Hk%elem_of_by_rank.
    rewrite Hkeys in Hk. by apply list_elem_of_singleton in Hk as ->. }
  assert (∀ k, is_Some (timestamps_of (db ex_test_clicked) "ex.test" None !! k) →
               ∃ c, as_zset (db ex_test_clicked) (clicks_name "ex.test" k) = inr c)
    as Htyped.
  { intros k Hk%elem_of_by_rank.
    rewrite Hkeys in Hk. apply list_elem_of_singleton in Hk as ->.
    exists (clicks_of (db ex_test_clicked) "ex.test" "abc1234"). by_computation. }
  split; [exact Hget|]. split; [exact Hkeys|]. split; [reflexivity|].
  split; [by_computation|]. split; [by_computation|].
  split; [by_computation|].
  destruct (getUsage_sums_keyed_clicks (rt := october) "ex.test" None ex_test_clicked
              None _ Hget eq_refl Hz Hplain Htyped)
    as (usage & w' & Hrun & Husage & _).
  rewrite Hrun. cbn [fst]. rewrite Husage. by_computation.
Defined.

(** A second create under ["abc1234"] returns [null] and changes nothing. *)
Lemma addLink_existing_key_fails_witness :
  links_of (db ex_test_created) "ex.test" !! "abc1234"
    = Some (mkLink "https://example.com" "Title of https://example.com" 1664971200000) ∧
  ∃ w', addLink (rt := october) 0 "ex.test" "https://other.example" (Some "abc1234")
          (Some "Other") None ex_test_created = (Returns None, w') ∧
        db w' = db ex_test_created.
Proof.
  assert (links_of (db ex_test_created) "ex.test" !! "abc1234"
          = Some (mkLink "https://example.com" "Title of https://example.com" 1664971200000))
    as Hk by by_computation.
  split; [exact Hk|].
  destruct (addLink_existing_key_fails (rt := october) 0 "ex.test" "https://other.example"
              "abc1234" (Some "Other") None ex_test_created _ Hk)
    as (r & w' & Hrun & _ & _ & _ & _ & _ & Hsame).
  destruct Hsame as [-> Hdb]; [done|]. by exists w'.
Defined.



(** C10, with 0 in the cache: [usage["ex.test"]] is present and holds 0,
    yet [getUsage] counts again, returns the 3 clicks it finds and
    overwrites the cache entry. *)
Theorem getUsage_recounts_cached_zero :
  usage_of (db zero_cached) "ex.test" = Some 0 ∧
  (getUsage (rt := october) "ex.test" None zero_cached).1 = Returns 3 ∧
  usage_of (db (after (getUsage (rt := october) "ex.test" None) zero_cached)) "ex.test"
    = Some 3 ∧
  ticks (after (getUsage (rt := october) "ex.test" None) zero_cached)
    = S (ticks zero_cached).
Proof. split_and!; by_computation. Qed.

(** C6, on the last day of a month: the key has three recorded clicks,
    all of them in the current month, October 2022, and [getUsage]
    returns 0.  The window ends at [new Date(y, m + 1, 0)], the first
    instant of the last day of the month, so the clicks of that day are
    outside it; with the billing cycle started on the first of the
    month, where the window ends at [Date.now()], the same clicks are
    counted. *)
Theorem getUsage_leaves_out_last_day_of_month :
  utc_year (@Date_now month_end (ticks last_day_clicked)) = 2022 ∧
  utc_month (@Date_now month_end (ticks last_day_clicked)) = 9 ∧
  size (clicks_of (db last_day_clicked) "ex.test" "abc1234") = 3%nat ∧
  map_Forall (λ _ score, utc_date 2022 9 1 ≤ score < utc_date 2022 10 1)
    (clicks_of (db last_day_clicked) "ex.test" "abc1234") ∧
  window_at (rt := month_end) None (@Date_now month_end (ticks last_day_clicked))
    = (utc_date 2022 9 1, utc_date 2022 9 31) ∧
  (getUsage (rt := month_end) "ex.test" None last_day_clicked).1 = Returns 0 ∧
  (getUsage (rt := month_end) "ex.test" (Some (utc_date 2022 9 1)) last_day_clicked).1
    = Returns 3.
Proof. split_and!; by_computation. Qed.

(** * Further properties of the functions *)

(** ** Auxiliary facts *)

Lemma set_db_same w : set_db (db w) w = w.
Proof. by destruct w. Qed.

Lemma truthy_Some k : k ≠ "" → truthy (Some k) = true.
Proof. intros Hk. simpl. by apply negb_true_iff, String.eqb_neq. Qed.

(** Under one hostname the cache entry has another name than every
    click log. *)
Lemma usage_name_ne_clicks hostname key : usage_name hostname ≠ clicks_name hostname key.
Proof.
  intros E. apply (f_equal String.length) in E.
  unfold usage_name, clicks_name in E. rewrite !append_length in E. simpl in E. lia.
Qed.


(** The index of a user has another name than the index of the project. *)
Lemma timestamps_name_user_ne hostname userId :
  truthy userId = true → timestamps_name hostname userId ≠ timestamps_name hostname None.
Proof.
  intros Ht. unfold timestamps_name. rewrite Ht. cbn [truthy]. intros E.
  apply (inj (String.append hostname)) in E.
  apply (inj (String.append ":links:timestamps")) in E. discriminate E.
Qed.

Lemma timestamps_name_no_user hostname userId :
  truthy userId = false → timestamps_name hostname userId = timestamps_name hostname None.
Proof. intros Ht. unfold timestamps_name. by rewrite Ht. Qed.

Lemma namespace_timestamps_name hostname userId :
  namespace hostname (timestamps_name hostname userId) = true.
Proof. unfold namespace, timestamps_name. by rewrite prefix_append_same. Qed.

(** A name of one namespace is no name of a namespace apart from it. *)
Lemma apart_namespace h1 h2 name :
  apart h1 h2 = true → namespace h1 name = true → namespace h2 name = true → False.
Proof.
  unfold apart. intros [H1 H2]%andb_true_iff N1 N2.
  apply negb_true_iff in H1, H2. unfold namespace in *.
  destruct (prefix_comparable _ _ _ N1 N2); congruence.
Qed.

Lemma apart_sym h1 h2 : apart h1 h2 = apart h2 h1.
Proof. unfold apart. apply andb_comm. Qed.

(** A collection with an entry is bound to its name. *)
Lemma as_hash_bound d name (h : gmap string LinkRecord) k v :
  as_hash d name = inr h → h !! k = Some v → d !! name = Some (RHash h).
Proof.
  unfold as_hash. destruct (d !! name) as [[| |]|]; intros Hr Hl; simplify_eq; try done.
Qed.

Lemma as_zset_bound d name (z : gmap string Z) k s :
  as_zset d name = inr z → z !! k = Some s → d !! name = Some (RZSet z).
Proof.
  unfold as_zset. destruct (d !! name) as [[| |]|]; intros Hr Hl; simplify_eq; try done.
Qed.

(** The members of a concrete index are plain when a check of each
    says so. *)
Lemma plain_members (z : gmap string Z) :
  map_Forall (λ k _, plain k = true) z → ∀ k, is_Some (z !! k) → plain k = true.
Proof. intros Hall k [s Hs]. exact (Hall k s Hs). Qed.

(** Counting after one more member. *)
Lemma count_in_range_insert lo hi (c : gmap string Z) member score :
  c !! member = None →
  count_in_range lo hi (<[member := score]> c) =
  count_in_range lo hi c + (if in_range lo hi score then 1 else 0).
Proof.
  intros Hnew. unfold count_in_range.
  rewrite (map_to_list_insert c member score Hnew).
  destruct (in_range lo hi score) eqn:Hin.
  - rewrite filter_cons_True by done. simpl length. lia.
  - rewrite filter_cons_False by (simpl; congruence). lia.
Qed.

Lemma sum_one_more (f g : string → Z) (keys : list string) k :
  NoDup keys → k ∈ keys →
  g k = f k + 1 → (∀ k', k' ≠ k → g k' = f k') →
  foldr Z.add 0 (g <$> keys) = foldr Z.add 0 (f <$> keys) + 1.
Proof.
  intros Hnd Hin Hk Hother.
  induction Hnd as [|k0 keys Hk0 Hnd IH]; [by apply elem_of_nil in Hin|].
  rewrite !fmap_cons. simpl. apply elem_of_cons in Hin as [<-|Hin].
  - rewrite Hk. assert (g <$> keys = f <$> keys) as ->; [|lia].
    apply list_fmap_ext. intros _ k' Hk'%list_elem_of_lookup_2. apply Hother. by intros ->.
  - rewrite IH by done. rewrite Hother; [lia|]. by intros ->.
Qed.




Lemma length_by_rank (z : gmap string Z) : length (by_rank z) = size z.
Proof. rewrite by_rank_Permutation, length_fmap. apply length_map_to_list. Qed.

Lemma map_keys_length metadata keys w links w' :
  map_keys metadata keys w = (Returns links, w') → length links = length keys.
Proof.
  revert links. induction keys as [|k keys IH]; intros links; cbn [map_keys].
  { by intros [= <- <-]. }
  unfold bind at 1. destruct (property metadata k w) as [[fields| |] w1] eqn:Hp;
    [|intros [=]|intros [=]].
  assert (w1 = w) as ->.
  { unfold property, ret, throw in Hp. destruct metadata; by simplify_eq. }
  unfold bind at 1. destruct (map_keys metadata keys w) as [[rest| |] w2] eqn:Hrest;
    [|intros [=]|intros [=]].
  unfold ret. intros [= <- <-]. simpl. f_equal. by apply IH.
Qed.

(** The replies of a batch of RENAME between names that are all
    different: each command answers as it would on the keyspace the
    batch started in. *)
Lemma run_batch_rename_replies pairs d :
  NoDup (names pairs) →
  (run_batch ((λ p, rename p.1 p.2) <$> pairs) d).1 = (λ p, rename_reply d p.1) <$> pairs.
Proof.
  revert d. induction pairs as [|[s0 d0] pairs IH]; intros d Hnd; [done|].
  rewrite names_cons in Hnd. simpl in Hnd.
  apply NoDup_cons in Hnd as [Hs0 [Hd0 Hnd]%NoDup_cons].
  apply not_elem_of_cons in Hs0 as [Hsd Hs0].
  rewrite !fmap_cons. cbn [run_batch run fst snd].
  assert (Hrest : ∀ d1, (∀ name, name ≠ s0 → name ≠ d0 → d1 !! name = d !! name) →
            (λ p, rename_reply d1 p.1) <$> pairs = (λ p, rename_reply d p.1) <$> pairs).
  { intros d1 Hd1. apply list_fmap_ext. intros _ [s t] Hp%list_elem_of_lookup_2.
    assert (s ∈ names pairs) as Hs.
    { unfold names. apply list_elem_of_bind. exists (s, t). split; [by left|done]. }
    unfold rename_reply. simpl. rewrite Hd1; [done| |]; by intros ->. }
  unfold RENAME, rename_reply at 1. simpl.
  destruct (d !! s0) as [v|] eqn:Hv.
  - specialize (IH (<[d0 := v]> (delete s0 d)) Hnd).
    destruct (run_batch _ _) as [rs d2]. simpl in *. rewrite IH. f_equal.
    apply Hrest. intros name H1 H2. rewrite lookup_insert_ne by done.
    by rewrite lookup_delete_ne.
  - specialize (IH d Hnd). destruct (run_batch _ _) as [rs d2]. simpl in *.
    by rewrite IH.
Qed.

Lemma first_failure_Status i n : first_failure i (replicate n Status) = None.
Proof. revert i. induction n as [|n IH]; intros i; simpl; [done|apply IH]. Qed.

Lemma first_failure_Failed i rs e : Failed e ∈ rs → is_Some (first_failure i rs).
Proof.
  revert i. induction rs as [|r rs IH]; intros i Hin; [by apply elem_of_nil in Hin|].
  apply elem_of_cons in Hin as [<-|Hin]; [simpl; eauto|].
  destruct r; simpl; eauto.
Qed.

Lemma length_migrated keys : length (migrated keys) = (3 + length keys)%nat.
Proof. unfold migrated. rewrite length_app, length_fmap. done. Qed.

Section further.
Context {rt : Runtime}.

(** ** The functions, step by step *)

(** [setRandomKey] and [getRandomKey] when the first [i] candidates are
    taken and the next one is free. *)
Lemma setRandomKey_first_free i fuel hostname url title w h :
  (i < fuel)%nat →
  as_hash (db w) (links_name hostname) = inr h →
  (∀ j, (j < i)%nat → is_Some (h !! nanoid (draws w + j))) →
  h !! nanoid (draws w + i) = None →
  setRandomKey fuel hostname url title w =
    (Returns (mkRandomKey (Int 1) (nanoid (draws w + i))),
     mkWorld (<[links_name hostname :=
                  RHash (<[nanoid (draws w + i) :=
                             mkLink url
                               (if truthy title then default "" title else getTitleFromUrl url)
                               (Date_now (ticks w + i))]> h)]> (db w))
             (ticks w + i + 1) (draws w + i + 1)).
Proof.
  revert fuel w. induction i as [|i IH]; intros fuel w Hfuel Hh Htaken Hfree;
    (destruct fuel as [|fuel]; [lia|]);
    simpl; unfold bind at 1; unfold draw at 1; unfold bind at 1;
    rewrite setKey_unfold; cbv zeta; cbn [db ticks draws]; rewrite Hh;
    unfold has_field.
  - rewrite !Nat.add_0_r in *. rewrite Hfree.
    destruct (decide (Int 1 = Int 0)); [done|]. unfold ret.
    by rewrite !Nat.add_1_r.
  - destruct (Htaken 0%nat) as [v Hv]; [lia|]. rewrite Nat.add_0_r in Hv. rewrite Hv.
    destruct (decide (Int 0 = Int 0)); [|done].
    rewrite (IH fuel _); cbn [db ticks draws].
    + by replace (S (draws w) + i)%nat with (draws w + S i)%nat by lia;
        replace (S (ticks w) + i)%nat with (ticks w + S i)%nat by lia.
    + lia.
    + done.
    + intros j Hj. replace (S (draws w) + j)%nat with (draws w + S j)%nat by lia.
      apply Htaken. lia.
    + by replace (S (draws w) + i)%nat with (draws w + S i)%nat by lia.
Qed.

Lemma getRandomKey_first_free i fuel hostname w h :
  (i < fuel)%nat →
  as_hash (db w) (links_name hostname) = inr h →
  (∀ j, (j < i)%nat → is_Some (h !! nanoid (draws w + j))) →
  h !! nanoid (draws w + i) = None →
  getRandomKey fuel hostname w =
    (Returns (nanoid (draws w + i)), mkWorld (db w) (ticks w) (draws w + i + 1)).
Proof.
  revert fuel w. induction i as [|i IH]; intros fuel w Hfuel Hh Htaken Hfree;
    (destruct fuel as [|fuel]; [lia|]);
    simpl; unfold bind at 1; unfold draw at 1; unfold bind at 1;
    unfold redis at 1, HEXISTS; cbn [db]; rewrite Hh;
    unfold set_db; cbn [db ticks draws]; unfold has_field.
  - rewrite !Nat.add_0_r in *. rewrite Hfree. cbn [bool_to_Z].
    destruct (decide (Int 0 = Int 1)); [done|]. unfold ret.
    by rewrite !Nat.add_1_r.
  - destruct (Htaken 0%nat) as [v Hv]; [lia|]. rewrite Nat.add_0_r in Hv. rewrite Hv.
    cbn [bool_to_Z]. destruct (decide (Int 1 = Int 1)); [|done].
    rewrite (IH fuel _); cbn [db ticks draws].
    + by replace (S (draws w) + i)%nat with (draws w + S i)%nat by lia.
    + lia.
    + done.
    + intros j Hj. replace (S (draws w) + j)%nat with (draws w + S j)%nat by lia.
      apply Htaken. lia.
    + by replace (S (draws w) + i)%nat with (draws w + S i)%nat by lia.
Qed.

(** [addLink] with a key that counts as supplied. *)
Lemma addLink_key_unfold fuel hostname url k title userId w :
  k ≠ "" →
  addLink fuel hostname url (Some k) title userId w =
  if reserved hostname k then (Returns None, w)
  else
    match setKey hostname k url title w with
    | (Returns (Int 1), w1) =>
        match redis (ZADD (timestamps_name hostname userId) (Date_now (ticks w1)) k)
                (mkWorld (db w1) (S (ticks w1)) (draws w1)) with
        | (Returns r, w2) => (Returns (Some r), w2)
        | (Throws e, w2) => (Throws e, w2)
        | (OutOfFuel, w2) => (OutOfFuel, w2)
        end
    | (Returns _, w1) => (Returns None, w1)
    | (Throws e, w1) => (Throws e, w1)
    | (OutOfFuel, w1) => (OutOfFuel, w1)
    end.
Proof.
  intros Hk. unfold addLink, reserved. rewrite (truthy_Some k Hk), andb_true_r.
  cbn [default]. destruct (_ && _); [done|].
  unfold bind at 1. unfold bind at 1.
  destruct (setKey _ _ _ _ _) as [[r0|e0|] w1]; try done.
  unfold ret at 1.
  destruct r0 as [n| |]; try done.
  destruct (decide (n = 1)) as [->|Hn].
  - cbn [is_one]. unfold bind at 1. unfold now at 1. unfold bind at 1.
    by destruct (redis _ _) as [[?| |] ?].
  - assert (is_one (inl (Int n)) = false) as ->.
    { destruct n as [|p|p]; try done. by destruct p. }
    destruct n as [|p|p]; try done. by destruct p.
Qed.

(** What a create that succeeds has done. *)
Lemma addLink_created fuel hostname url k title userId w r w' :
  addLink fuel hostname url k title userId w = (Returns (Some r), w') →
  ∃ k0 h z,
    k = Some k0 ∧ k0 ≠ "" ∧
    as_hash (db w) (links_name hostname) = inr h ∧ h !! k0 = None ∧
    as_zset (db w) (timestamps_name hostname userId) = inr z ∧
    r = Int (bool_to_Z (negb (has_field z k0))) ∧
    w' = mkWorld
           (<[timestamps_name hostname userId := RZSet (<[k0 := Date_now (S (ticks w))]> z)]>
              (<[links_name hostname :=
                   RHash (<[k0 := mkLink url
                                    (if truthy title then default "" title
                                     else getTitleFromUrl url)
                                    (Date_now (ticks w))]> h)]> (db w)))
           (S (S (ticks w))) (draws w).
Proof.
  destruct (truthy k) eqn:Ht.
  2:{ rewrite addLink_random_unfold by done.
      by destruct (setRandomKey _ _ _ _ _) as [[?| |] ?]. }
  destruct k as [k0|]; [|done].
  assert (k0 ≠ "") as Hne by (by intros ->).
  rewrite addLink_key_unfold by done.
  destruct (reserved hostname k0); [done|].
  rewrite setKey_unfold. cbv zeta.
  destruct (as_hash _ _) as [e|h] eqn:Hh; [done|].
  unfold has_field at 1. destruct (h !! k0) eqn:Hk0; [done|].
  cbn [db ticks draws]. unfold redis, ZADD. cbn [db].
  rewrite (as_zset_lookup (db w))
    by (rewrite lookup_insert_ne; [done|apply links_name_ne_timestamps]).
  destruct (as_zset _ _) as [e|z] eqn:Hz; [done|].
  rewrite put_zset_insert. unfold set_db. cbn [db ticks draws].
  intros [= <- <-]. by exists k0, h, z.
Qed.

(** [recordClick] reads the clock twice, for the score and for the
    member, and then is ZADD. *)
Lemma recordClick_unfold hostname req k w :
  recordClick hostname req k w =
  redis (ZADD (if truthy k then clicks_name hostname (default "" k)
               else root_clicks_name hostname)
              (Date_now (ticks w))
              (stringify (mkClick (if VERCEL then req_geo req else LOCALHOST_GEO_DATA)
                                  (req_ua req) (req_referer req)
                                  (Date_now (S (ticks w))))))
        (mkWorld (db w) (S (S (ticks w))) (draws w)).
Proof. done. Qed.



(** The database an edit to another key leaves. *)
Lemma editLink_renamed hostname k newKey url title timestamp userId w h z c :
  k ≠ newKey →
  reserved hostname newKey = false →
  as_hash (db w) (links_name hostname) = inr h →
  h !! newKey = None →
  as_zset (db w) (timestamps_name hostname userId) = inr z →
  as_zset (db w) (clicks_name hostname k) = inr c →
  ∃ rs, editLink hostname k newKey url title timestamp userId w =
    (Returns (Renamed rs),
     set_db
       (let d4 := <[timestamps_name hostname userId :=
                      RZSet (<[newKey := timestamp]> (delete k z))]>
                    (<[links_name hostname :=
                         RHash (<[newKey := mkLink url title timestamp]> (delete k h))]>
                       (db w)) in
        if decide (c = ∅) then d4
        else <[clicks_name hostname newKey := RZSet c]> (delete (clicks_name hostname k) d4))
       w).
Proof.
  intros Hne Hres Hh Hnew Hz Hc.
  pose proof (links_name_ne_timestamps hostname userId) as HLT.
  pose proof (links_name_ne_clicks hostname k) as HLC.
  pose proof (timestamps_name_ne_clicks hostname userId k) as HTC.
  unfold editLink. apply String.eqb_neq in Hne. rewrite Hne, Hres.
  unfold bind at 1. unfold checkIfKeyExists. rewrite Hres.
  unfold redis at 1, HEXISTS. rewrite Hh.
  replace (has_field h newKey) with false by (unfold has_field; by rewrite Hnew).
  rewrite set_db_same. cbn [bool_to_Z].
  destruct (decide (Int 0 = Int 1)) as [|_]; [done|].
  unfold bind at 1. unfold redis at 1, ZCARD. rewrite Hc, set_db_same.
  unfold bind at 1. rewrite pipeline_exec_nonempty by done.
  unfold editLink_batch. rewrite run_batch_app.
  rewrite (run_rename_key (db w) _ _ k newKey _ timestamp h z HLT Hh Hz).
  cbv zeta. unfold positive.
  destruct (decide (c = ∅)) as [->|Hcne].
  - rewrite map_size_empty. simpl. unfold ret. eauto.
  - apply map_size_non_empty_iff in Hcne.
    destruct (Z.ltb_spec 0 (Z.of_nat (size c))); [|lia].
    cbn [run_batch run]. unfold RENAME.
    rewrite !lookup_insert_ne by done.
    unfold as_zset in Hc. destruct (db w !! clicks_name hostname k) as [[| |]|] eqn:Hck;
      simplify_eq.
    simpl. unfold ret. eauto.
Qed.

Lemma NoDup_changeDomain_names hostname newHostname (z : gmap string Z) :
  apart hostname newHostname = true →
  NoDup (names ((λ c, (name_of hostname c, name_of newHostname c)) <$> migrated (by_rank z))).
Proof.
  intros Hapart. apply NoDup_names_fmap; try apply _.
  - intros c1 c2. by apply apart_name_of.
  - apply NoDup_migrated, NoDup_by_rank.
Qed.

(** ** Random keys *)

(** X2.  [setRandomKey] takes the first identifier of the generator
    that [links[hostname]] lacks: when the next [i] identifiers are all
    taken and the one after them is free, it returns
    [{ response: 1, key }] with that identifier as key, having stored the
    record under it (with the title given, or the title fetched for the
    url when none or the empty one is given, and the clock reading of its
    last attempt as timestamp); it has drawn [i + 1] identifiers and read
    the clock [i + 1] times, and no other name of the database has
    changed. *)
Theorem setRandomKey_takes_first_free_candidate i fuel hostname url title w h :
  (i < fuel)%nat →
  as_hash (db w) (links_name hostname) = inr h →
  (∀ j, (j < i)%nat → is_Some (h !! nanoid (draws w + j))) →
  h !! nanoid (draws w + i) = None →
  ∃ w', setRandomKey fuel hostname url title w
          = (Returns (mkRandomKey (Int 1) (nanoid (draws w + i))), w') ∧
    links_of (db w') hostname =
      <[nanoid (draws w + i) :=
          mkLink url (if truthy title then default "" title else getTitleFromUrl url)
                 (Date_now (ticks w + i))]> h ∧
    (∀ name, name ≠ links_name hostname → db w' !! name = db w !! name) ∧
    draws w' = (draws w + i + 1)%nat ∧
    ticks w' = (ticks w + i + 1)%nat.
Proof.
  intros Hfuel Hh Htaken Hfree. eexists. split.
  { by apply (setRandomKey_first_free i fuel hostname url title w h). }
  cbn [db ticks draws]. split_and!; try done.
  - unfold links_of. by rewrite lookup_insert_eq.
  - intros name Hne. by rewrite lookup_insert_ne.
Qed.

(** X3.  Neither [setRandomKey] nor [getRandomKey] gives up: when every
    identifier the generator will hand out is taken in
    [links[hostname]], the recursion does not end, however far it is
    unrolled, and the database stays as it is. *)
Theorem random_key_recursion_never_ends_when_all_taken fuel hostname url title w h :
  as_hash (db w) (links_name hostname) = inr h →
  (∀ j, is_Some (h !! nanoid (draws w + j))) →
  setRandomKey fuel hostname url title w
    = (OutOfFuel, mkWorld (db w) (ticks w + fuel) (draws w + fuel)) ∧
  getRandomKey fuel hostname w
    = (OutOfFuel, mkWorld (db w) (ticks w) (draws w + fuel)).
Proof.
  revert w. induction fuel as [|fuel IH]; intros w Hh Htaken.
  { rewrite !Nat.add_0_r. by destruct w. }
  destruct (Htaken 0%nat) as [v Hv]. rewrite Nat.add_0_r in Hv.
  destruct (IH (mkWorld (db w) (S (ticks w)) (S (draws w)))) as [IHs _]; [done| |].
  { intros j. cbn [draws]. replace (S (draws w) + j)%nat with (draws w + S j)%nat by lia.
    apply Htaken. }
  destruct (IH (mkWorld (db w) (ticks w) (S (draws w)))) as [_ IHg]; [done| |].
  { intros j. cbn [draws]. replace (S (draws w) + j)%nat with (draws w + S j)%nat by lia.
    apply Htaken. }
  cbn [db ticks draws] in IHs, IHg. split.
  - simpl. unfold bind at 1. unfold draw at 1. unfold bind at 1.
    rewrite setKey_unfold. cbv zeta. cbn [db ticks draws]. rewrite Hh.
    unfold has_field. rewrite Hv. destruct (decide (Int 0 = Int 0)); [|done].
    rewrite IHs. by rewrite !Nat.add_succ_r.
  - simpl. unfold bind at 1. unfold draw at 1. unfold bind at 1.
    unfold redis at 1, HEXISTS. cbn [db]. rewrite Hh.
    unfold set_db. cbn [db ticks draws]. unfold has_field. rewrite Hv.
    cbn [bool_to_Z]. destruct (decide (Int 1 = Int 1)); [|done].
    rewrite IHg. by rewrite !Nat.add_succ_r.
Qed.

(** X4.  [getRandomKey] returns the first identifier of the generator
    that [links[hostname]] lacks and writes nothing: the database and the
    clock are as before, [i + 1] identifiers are drawn.  The key is not
    set aside, but it is free right after the call: a [setKey] with it
    answers 1; and it is the key [setRandomKey] takes from the same
    state. *)
Theorem getRandomKey_takes_first_free_candidate i fuel hostname w h :
  (i < fuel)%nat →
  as_hash (db w) (links_name hostname) = inr h →
  (∀ j, (j < i)%nat → is_Some (h !! nanoid (draws w + j))) →
  h !! nanoid (draws w + i) = None →
  ∃ w', getRandomKey fuel hostname w = (Returns (nanoid (draws w + i)), w') ∧
    db w' = db w ∧ ticks w' = ticks w ∧ draws w' = (draws w + i + 1)%nat ∧
    (∀ url title, (setKey hostname (nanoid (draws w + i)) url title w').1 = Returns (Int 1)) ∧
    (∀ url title, (setRandomKey fuel hostname url title w).1
                  = Returns (mkRandomKey (Int 1) (nanoid (draws w + i)))).
Proof.
  intros Hfuel Hh Htaken Hfree. eexists. split.
  { by apply (getRandomKey_first_free i fuel hostname w h). }
  cbn [db ticks draws]. split_and!; try done.
  - intros url title. rewrite setKey_unfold. cbv zeta. cbn [db].
    rewrite Hh. unfold has_field. by rewrite Hfree.
  - intros url title.
    by rewrite (setRandomKey_first_free i fuel hostname url title w h).
Qed.

(** ** Taken and reserved keys *)

(** X5.  [checkIfKeyExists] tells what [addLink] will do with a key that
    is supplied: it answers 1 when the key is reserved for the hostname
    or has a record in [links[hostname]], 0 otherwise, and changes
    nothing.  When it answers 1, [addLink] returns [null] and leaves the
    database as it is; when it answers 0, [addLink] succeeds: it returns
    the reply of ZADD (1 for a key new to the index, 0 for a key that was
    in it), the record is in [links[hostname]] and the key is in the
    index the call's [userId] selects. *)
Theorem checkIfKeyExists_decides_addLink fuel hostname url k title userId w h z :
  k ≠ "" →
  as_hash (db w) (links_name hostname) = inr h →
  as_zset (db w) (timestamps_name hostname userId) = inr z →
  ∃ (taken : bool) r w',
    taken = reserved hostname k || has_field h k ∧
    checkIfKeyExists hostname k w = (Returns (Int (bool_to_Z taken)), w) ∧
    addLink fuel hostname url (Some k) title userId w = (Returns r, w') ∧
    if taken then r = None ∧ db w' = db w
    else r = Some (Int (bool_to_Z (negb (has_field z k)))) ∧
         links_of (db w') hostname !! k
           = Some (mkLink url (if truthy title then default "" title else getTitleFromUrl url)
                          (Date_now (ticks w))) ∧
         timestamps_of (db w') hostname userId !! k = Some (Date_now (S (ticks w))).
Proof.
  intros Hk Hh Hz. rewrite addLink_key_unfold by done.
  unfold checkIfKeyExists.
  destruct (reserved hostname k) eqn:Hres.
  { exists true, None, w. by split_and!. }
  rewrite setKey_unfold. cbv zeta. unfold redis at 1, HEXISTS. rewrite Hh.
  rewrite set_db_same. cbn [orb].
  destruct (has_field h k) eqn:Hf.
  { eexists true, None, _. by split_and!. }
  cbn [db ticks draws]. unfold redis, ZADD. cbn [db].
  rewrite (as_zset_lookup (db w))
    by (rewrite lookup_insert_ne; [done|apply links_name_ne_timestamps]).
  rewrite Hz, put_zset_insert. unfold set_db. cbn [db ticks draws].
  eexists false, _, _. split_and!; try done; cbn [db].
  - unfold links_of. rewrite lookup_insert_ne
      by (apply not_eq_sym, links_name_ne_timestamps).
    by rewrite !lookup_insert_eq.
  - unfold timestamps_of, zset_at. by rewrite !lookup_insert_eq.
Qed.

(** X6.  A reserved key of ["dub.sh"] is refused by every function that
    is given a key: [checkIfKeyExists] reports it as taken, [addLink]
    with it returns [null], [editLink] to it from another key returns
    [null]; each without reading or writing the database. *)
Theorem reserved_key_refused_by_every_entry_point key w :
  key ∈ RESERVED_KEYS →
  key ≠ "" →
  checkIfKeyExists "dub.sh" key w = (Returns (Int 1), w) ∧
  (∀ fuel url title userId,
     addLink fuel "dub.sh" url (Some key) title userId w = (Returns None, w)) ∧
  (∀ k url title timestamp userId,
     k ≠ key →
     editLink "dub.sh" k key url title timestamp userId w = (Returns Rejected, w)).
Proof.
  intros Hin Hne.
  assert (reserved "dub.sh" key = true) as Hres.
  { unfold reserved. by rewrite bool_decide_eq_true_2. }
  split_and!.
  - unfold checkIfKeyExists. by rewrite Hres.
  - intros fuel url title userId. rewrite addLink_key_unfold by done. by rewrite Hres.
  - intros k url title timestamp userId Hk. unfold editLink.
    apply String.eqb_neq in Hk. by rewrite Hk, Hres.
Qed.

(** ** Clicks *)

(** X7.  [recordClick] adds one member to one log and touches nothing
    else: the log of the key when a key is given, the root log of the
    hostname when none or the empty one is.  The member is the event
    with the second clock reading as its timestamp, its score is the
    first clock reading; the reply is 1 for a member new to the log.
    Whether the key has a link is not looked at: [links[hostname]] and
    the indexes are neither read nor changed. *)
Theorem recordClick_adds_to_one_log hostname req k w c :
  let name := if truthy k then clicks_name hostname (default "" k)
              else root_clicks_name hostname in
  let member := stringify (mkClick (if VERCEL then req_geo req else LOCALHOST_GEO_DATA)
                                   (req_ua req) (req_referer req)
                                   (Date_now (S (ticks w)))) in
  as_zset (db w) name = inr c →
  ∃ w', recordClick hostname req k w
          = (Returns (Int (bool_to_Z (negb (has_field c member)))), w') ∧
    zset_at (db w') name = <[member := Date_now (ticks w)]> c ∧
    (∀ other, other ≠ name → db w' !! other = db w !! other) ∧
    links_of (db w') hostname = links_of (db w) hostname ∧
    (∀ userId, timestamps_of (db w') hostname userId = timestamps_of (db w) hostname userId) ∧
    ticks w' = S (S (ticks w)).
Proof.
  intros name member Hc. rewrite recordClick_unfold. fold name member.
  unfold redis, ZADD. cbn [db]. rewrite Hc, put_zset_insert.
  unfold set_db. cbn [db ticks draws]. eexists. split; [done|]. cbn [db ticks].
  assert (Hother : ∀ other, other ≠ name →
            <[name := RZSet (<[member := Date_now (ticks w)]> c)]> (db w) !! other
            = db w !! other).
  { intros other Hne. by rewrite lookup_insert_ne. }
  split_and!; try done.
  - unfold zset_at. by rewrite lookup_insert_eq.
  - unfold links_of. rewrite Hother; [done|].
    unfold name. destruct (truthy k);
      [apply links_name_ne_clicks|apply not_eq_sym, root_clicks_name_ne_links].
  - intros userId. unfold timestamps_of, zset_at. rewrite Hother; [done|].
    unfold name. destruct (truthy k);
      [apply timestamps_name_ne_clicks|apply not_eq_sym, root_clicks_name_ne_timestamps].
Qed.

(** X8.  A click recorded for a key of the index of the project is
    counted by the next [getUsage] that finds no usable cache entry: with
    a billing cycle that started before the click and a clock that has
    not gone back since, the usage is one more than the clicks the
    database had in the same window before the click. *)
Theorem recordClick_is_counted_by_getUsage hostname req k start w cachedUsage z c :
  k ≠ "" →
  GET (usage_name hostname) (db w) = inr cachedUsage →
  cached cachedUsage = None →
  as_zset (db w) (timestamps_name hostname None) = inr z →
  (∀ k', is_Some (z !! k') → plain k' = true) →
  (∀ k', is_Some (z !! k') → ∃ c', as_zset (db w) (clicks_name hostname k') = inr c') →
  is_Some (z !! k) →
  as_zset (db w) (clicks_name hostname k) = inr c →
  c !! stringify (mkClick (if VERCEL then req_geo req else LOCALHOST_GEO_DATA)
                          (req_ua req) (req_referer req) (Date_now (S (ticks w)))) = None →
  start ≤ Date_now (ticks w) ≤ Date_now (S (S (ticks w))) →
  (getUsage hostname (Some start) (after (recordClick hostname req (Some k)) w)).1
  = Returns (keyed_clicks (db w) hostname (start, Date_now (S (S (ticks w)))) + 1).
Proof.
  intros Hk Hget Hmiss Hz _ Htyped Hin Hc Hnew Hwin.
  set (member := stringify _) in Hnew.
  assert (Hw1 : after (recordClick hostname req (Some k)) w =
                mkWorld (<[clicks_name hostname k :=
                             RZSet (<[member := Date_now (ticks w)]> c)]> (db w))
                        (S (S (ticks w))) (draws w)).
  { unfold after. rewrite recordClick_unfold, (truthy_Some k Hk).
    change (default "" (Some k)) with k.
    unfold redis, ZADD. cbn [db]. by rewrite Hc, put_zset_insert. }
  rewrite Hw1. erewrite (getUsage_miss hostname (Some start) _ cachedUsage z); cbn [db ticks].
  - cbn [fst]. f_equal. unfold keyed_clicks, timestamps_of. cbn [window_at fst snd].
    rewrite (zset_at_lookup (db w))
      by (rewrite lookup_insert_ne; [done|apply not_eq_sym, timestamps_name_ne_clicks]).
    rewrite (as_zset_zset_at _ _ _ Hz).
    apply (sum_one_more _ _ _ k).
    + apply NoDup_by_rank.
    + by apply elem_of_by_rank.
    + unfold clicks_of, zset_at at 1. rewrite lookup_insert_eq.
      rewrite (as_zset_zset_at _ _ _ Hc), count_in_range_insert by done.
      unfold in_range.
      destruct (Z.leb_spec start (Date_now (ticks w))); [|lia].
      destruct (Z.leb_spec (Date_now (ticks w)) (Date_now (S (S (ticks w))))); [done|lia].
    + intros k' Hk'. unfold clicks_of. f_equal. apply zset_at_lookup.
      rewrite lookup_insert_ne; [done|]. intros E. by apply clicks_name_inj in E.
  - unfold GET. rewrite lookup_insert_ne by (apply not_eq_sym, usage_name_ne_clicks).
    exact Hget.
  - done.
  - rewrite (as_zset_lookup (db w))
      by (rewrite lookup_insert_ne; [done|apply not_eq_sym, timestamps_name_ne_clicks]).
    exact Hz.
  - intros k' Hk'. destruct (decide (k' = k)) as [->|Hne].
    + eexists. unfold as_zset. by rewrite lookup_insert_eq.
    + destruct (Htyped k' Hk') as [c' Hc']. exists c'.
      rewrite (as_zset_lookup (db w)); [done|].
      rewrite lookup_insert_ne; [done|]. intros E. by apply clicks_name_inj in E.
Qed.

(** ** Listing and counting links *)



(** X11.  [getLinkCountForProject] agrees with the list of the project:
    whenever [getLinksForProject(slug)] returns an array,
    [getLinkCountForProject(slug)] returns its length, and changes
    nothing. *)
Theorem getLinkCountForProject_is_length_of_list slug w links w' :
  getLinksForProject slug None w = (Returns links, w') →
  getLinkCountForProject slug w = (Returns (Int (Z.of_nat (length links))), w).
Proof.
  unfold getLinksForProject, getLinkCountForProject.
  unfold bind at 1. unfold redis_read at 1, ZRANGE. unfold redis, ZCARD.
  destruct (as_zset _ _) as [e|z]; [done|].
  rewrite set_db_same. rewrite <- length_by_rank, <- (length_reverse (by_rank z)).
  destruct (decide (reverse (by_rank z) = [])) as [->|Hcons].
  { unfold ret. by intros [= <- <-]. }
  unfold bind at 1. destruct (redis_read _ _) as [[metadata| |] w1]; try done.
  intros Hmap. apply map_keys_length in Hmap. by rewrite Hmap.
Qed.

(** X12.  Only a create without a user is counted: after an [addLink]
    that succeeded, [getLinkCountForProject] returns the size the index
    of the project had before, plus the reply of [addLink] (1 for a key
    new to the index, 0 for one that was in it) when no [userId] was
    supplied, and plus nothing when one was. *)
Theorem addLink_counts_only_without_user fuel hostname url k title userId w r w' z :
  addLink fuel hostname url k title userId w = (Returns (Some r), w') →
  as_zset (db w) (timestamps_name hostname None) = inr z →
  getLinkCountForProject hostname w' =
    (Returns (Int (Z.of_nat (size z) + (if truthy userId then 0 else number r))), w').
Proof.
  intros (k0 & h & z' & -> & Hne & Hh & Hk0 & Hz' & -> & ->)%addLink_created Hz.
  unfold getLinkCountForProject, redis, ZCARD. cbn [db]. unfold set_db. cbn [db ticks draws].
  destruct (truthy userId) eqn:Ht.
  - rewrite (as_zset_lookup (db w)).
    + rewrite Hz. by rewrite Z.add_0_r.
    + rewrite lookup_insert_ne by (by apply timestamps_name_user_ne).
      rewrite lookup_insert_ne; [done|apply links_name_ne_timestamps].
  - rewrite (timestamps_name_no_user _ _ Ht) in *. rewrite Hz in Hz'. simplify_eq.
    unfold as_zset. rewrite lookup_insert_eq. do 3 f_equal.
    rewrite map_size_insert. unfold has_field. destruct (z' !! k0); simpl; lia.
Qed.


(** ** Editing *)

(** X14.  An edit to a key that another link has is refused:
    [editLink] returns [null] and the world is as it was; the record
    under the new key is not overwritten and the old key keeps its
    record, its place in the index and its clicks. *)
Theorem editLink_taken_key_rejected hostname k newKey url title timestamp userId w h v :
  k ≠ newKey →
  as_hash (db w) (links_name hostname) = inr h →
  h !! newKey = Some v →
  editLink hostname k newKey url title timestamp userId w = (Returns Rejected, w).
Proof.
  intros Hne Hh Hnew. unfold editLink.
  apply String.eqb_neq in Hne. rewrite Hne.
  destruct (reserved hostname newKey) eqn:Hres; [done|].
  unfold bind at 1. unfold checkIfKeyExists. rewrite Hres.
  unfold redis, HEXISTS. rewrite Hh. unfold has_field. rewrite Hnew.
  rewrite set_db_same. cbn [bool_to_Z].
  by destruct (decide (Int 1 = Int 1)).
Qed.

(** X15.  Renaming a link and renaming it back restores the world: for
    a link whose record is [{ url, title, timestamp }] and whose score in
    the index is [timestamp], [editLink] from [key] to a new key that
    [links], the index and the click logs do not know, followed by
    [editLink] from the new key to [key], both with the values of the
    record, leaves the database as it was; in between the record is
    under the new key and not under the old one. *)
Theorem editLink_round_trip hostname k newKey url title timestamp userId w h z c :
  k ≠ newKey →
  reserved hostname newKey = false →
  reserved hostname k = false →
  as_hash (db w) (links_name hostname) = inr h →
  h !! k = Some (mkLink url title timestamp) →
  h !! newKey = None →
  as_zset (db w) (timestamps_name hostname userId) = inr z →
  z !! k = Some timestamp →
  z !! newKey = None →
  as_zset (db w) (clicks_name hostname k) = inr c →
  db w !! clicks_name hostname newKey = None →
  ∃ rs1 rs2 w1,
    editLink hostname k newKey url title timestamp userId w = (Returns (Renamed rs1), w1) ∧
    links_of (db w1) hostname !! k = None ∧
    links_of (db w1) hostname !! newKey = Some (mkLink url title timestamp) ∧
    editLink hostname newKey k url title timestamp userId w1 = (Returns (Renamed rs2), w).
Proof.
  intros Hne Hres' Hres Hh Hk Hnew Hz Hzk Hznew Hc Hcnew.
  pose proof (links_name_ne_timestamps hostname userId) as HLT.
  pose proof (links_name_ne_clicks hostname k) as HLC.
  pose proof (links_name_ne_clicks hostname newKey) as HLC'.
  pose proof (timestamps_name_ne_clicks hostname userId k) as HTC.
  pose proof (timestamps_name_ne_clicks hostname userId newKey) as HTC'.
  assert (clicks_name hostname k ≠ clicks_name hostname newKey) as HCC.
  { intros E. by apply clicks_name_inj in E. }
  pose proof (as_hash_bound _ _ _ _ _ Hh Hk) as HL.
  pose proof (as_zset_bound _ _ _ _ _ Hz Hzk) as HT.
  destruct (editLink_renamed hostname k newKey url title timestamp userId w h z c)
    as [rs1 Hrun1]; try done.
  set (v := mkLink url title timestamp) in *.
  set (h1 := <[newKey := v]> (delete k h)) in *.
  set (z1 := <[newKey := timestamp]> (delete k z)) in *.
  set (d4 := <[timestamps_name hostname userId := RZSet z1]>
               (<[links_name hostname := RHash h1]> (db w))) in *.
  cbv zeta in Hrun1.
  set (d1 := if decide (c = ∅) then d4
             else <[clicks_name hostname newKey := RZSet c]>
                    (delete (clicks_name hostname k) d4)) in *.
  assert (HL1 : d1 !! links_name hostname = Some (RHash h1)).
  { unfold d1, d4. destruct (decide (c = ∅)).
    - rewrite lookup_insert_ne by done. by rewrite lookup_insert_eq.
    - rewrite lookup_insert_ne, lookup_delete_ne by done.
      rewrite lookup_insert_ne by done. by rewrite lookup_insert_eq. }
  assert (HT1 : d1 !! timestamps_name hostname userId = Some (RZSet z1)).
  { unfold d1, d4. destruct (decide (c = ∅)).
    - by rewrite lookup_insert_eq.
    - rewrite lookup_insert_ne, lookup_delete_ne by done. by rewrite lookup_insert_eq. }
  assert (HC1 : as_zset d1 (clicks_name hostname newKey) = inr c).
  { unfold as_zset, d1, d4. destruct (decide (c = ∅)) as [->|].
    - rewrite !lookup_insert_ne by done. by rewrite Hcnew.
    - by rewrite lookup_insert_eq. }
  destruct (editLink_renamed hostname newKey k url title timestamp userId (set_db d1 w) h1 z1 c)
    as [rs2 Hrun2]; cbn [db set_db]; try done.
  { unfold as_hash. by rewrite HL1. }
  { unfold h1. rewrite lookup_insert_ne by done. by rewrite lookup_delete_eq. }
  { unfold as_zset. by rewrite HT1. }
  exists rs1, rs2, (set_db d1 w). split; [exact Hrun1|].
  cbn [db set_db]. unfold links_of. rewrite HL1.
  split; [unfold h1; rewrite lookup_insert_ne by done; by rewrite lookup_delete_eq|].
  split; [unfold h1; by rewrite lookup_insert_eq|].
  rewrite Hrun2. f_equal. cbv zeta. cbn [db set_db]. fold v.
  assert (<[k := v]> (delete newKey h1) = h) as ->.
  { unfold h1. rewrite delete_insert_eq, (delete_id (delete k h)) by
      (by rewrite lookup_delete_ne).
    rewrite insert_delete_eq. by apply insert_id. }
  assert (<[k := timestamp]> (delete newKey z1) = z) as ->.
  { unfold z1. rewrite delete_insert_eq, (delete_id (delete k z)) by
      (by rewrite lookup_delete_ne).
    rewrite insert_delete_eq. by apply insert_id. }
  match goal with |- set_db ?D _ = _ => assert (D = db w) as -> end; [|by destruct w].
  set (d := db w) in *.
  apply map_eq. intros name.
  unfold d1, d4. destruct (decide (c = ∅)) as [->|Hcne].
  - destruct (decide (name = timestamps_name hostname userId)) as [->|H1].
    { by rewrite lookup_insert_eq. }
    rewrite lookup_insert_ne by done.
    destruct (decide (name = links_name hostname)) as [->|H2].
    { by rewrite lookup_insert_eq. }
    by rewrite !lookup_insert_ne.
  - assert (d !! clicks_name hostname k = Some (RZSet c)) as HCk.
    { unfold as_zset in Hc. destruct (d !! clicks_name hostname k) as [[| |]|]; by simplify_eq. }
    destruct (decide (name = clicks_name hostname k)) as [->|H3].
    { by rewrite lookup_insert_eq. }
    rewrite lookup_insert_ne by done.
    destruct (decide (name = clicks_name hostname newKey)) as [->|H4].
    { by rewrite lookup_delete_eq. }
    rewrite lookup_delete_ne by done.
    destruct (decide (name = timestamps_name hostname userId)) as [->|H1].
    { by rewrite lookup_insert_eq. }
    rewrite lookup_insert_ne by done.
    destruct (decide (name = links_name hostname)) as [->|H2].
    { by rewrite lookup_insert_eq. }
    rewrite !lookup_insert_ne by done. rewrite lookup_delete_ne by done.
    by rewrite !lookup_insert_ne.
Qed.

(** ** Usage *)


(** X17.  [getUsage] counts the clicks of the keys of
    [links:timestamps[hostname]] and of no other key: what the click log
    of a key outside that index holds (a key indexed under a user only,
    or a key without a link) plays no part; in any database that differs
    at that log only, the call returns the same number. *)
Theorem getUsage_ignores_unindexed_keys hostname billingCycleStart w cachedUsage z k d :
  GET (usage_name hostname) (db w) = inr cachedUsage →
  cached cachedUsage = None →
  as_zset (db w) (timestamps_name hostname None) = inr z →
  (∀ k', is_Some (z !! k') → plain k' = true) →
  (∀ k', is_Some (z !! k') → ∃ c, as_zset (db w) (clicks_name hostname k') = inr c) →
  z !! k = None →
  (∀ name, name ≠ clicks_name hostname k → d !! name = db w !! name) →
  (getUsage hostname billingCycleStart (set_db d w)).1
  = (getUsage hostname billingCycleStart w).1.
Proof.
  intros Hget Hmiss Hz _ Htyped Hk Hd.
  assert (Hkeys : ∀ k', is_Some (z !! k') → clicks_name hostname k' ≠ clicks_name hostname k).
  { intros k' Hk' E. apply clicks_name_inj in E. subst. rewrite Hk in Hk'. by destruct Hk'. }
  erewrite (getUsage_miss hostname billingCycleStart w) by done.
  erewrite (getUsage_miss hostname billingCycleStart (set_db d w) cachedUsage z).
  - cbn [fst ticks set_db db]. f_equal. unfold keyed_clicks, timestamps_of.
    rewrite (zset_at_lookup (db w) d) by (apply Hd, timestamps_name_ne_clicks).
    rewrite (as_zset_zset_at _ _ _ Hz).
    f_equal. apply list_fmap_ext. intros _ k' Hk'%list_elem_of_lookup_2%elem_of_by_rank.
    unfold clicks_of. f_equal. apply zset_at_lookup, Hd, Hkeys, Hk'.
  - cbn [db set_db]. unfold GET. rewrite Hd by apply usage_name_ne_clicks. exact Hget.
  - done.
  - cbn [db set_db]. rewrite (as_zset_lookup (db w) d) by (apply Hd, timestamps_name_ne_clicks).
    exact Hz.
  - cbn [db set_db]. intros k' Hk'. destruct (Htyped k' Hk') as [c Hc]. exists c.
    rewrite (as_zset_lookup (db w) d) by (apply Hd, Hkeys, Hk'). exact Hc.
Qed.

(** ** Changing the domain *)

(** X18.  [changeDomain] returns the replies of its batch only when
    every collection it renames is bound: [links], [links:timestamps],
    [root:clicks] and the click log of every key of the index; then
    there are three replies and one per key, all OK.  When one of them
    is not bound (a root that was never clicked, a link that was never
    clicked), its RENAME fails, [exec] throws and the call returns
    [null]. *)
Theorem changeDomain_returns_null_unless_all_bound hostname newHostname w z :
  apart hostname newHostname = true →
  as_zset (db w) (timestamps_name hostname None) = inr z →
  (∀ k, is_Some (z !! k) → plain k = true) →
  (changeDomain hostname newHostname w).1 =
    Returns (if decide (Forall (λ c, is_Some (db w !! name_of hostname c))
                          (migrated (by_rank z)))
             then Some (replicate (3 + size z) Status)
             else None).
Proof.
  intros Hapart Hz _.
  unfold changeDomain, bind, redis_read, ZRANGE. rewrite Hz.
  unfold try_catch. rewrite pipeline_exec_nonempty by done.
  rewrite changeDomain_batch_pairs.
  pose proof (run_batch_rename_replies _ (db w) (NoDup_changeDomain_names _ _ z Hapart))
    as Hreplies.
  destruct (run_batch _ _) as [rs d']. cbn [fst] in Hreplies. subst rs.
  rewrite <- list_fmap_compose.
  destruct (decide (Forall _ _)) as [Hall|Hsome].
  - assert ((λ p, rename_reply (db w) p.1) ∘ (λ c, (name_of hostname c, name_of newHostname c))
              <$> migrated (by_rank z) = replicate (3 + size z) Status) as ->.
    { rewrite <- length_by_rank, <- length_migrated.
      induction Hall as [|c l [v Hv] Hl IH]; [done|].
      rewrite fmap_cons. simpl. rewrite IH. unfold rename_reply. simpl. by rewrite Hv. }
    by rewrite first_failure_Status.
  - apply not_Forall_Exists in Hsome; [|apply _].
    apply Exists_exists in Hsome as (c & Hc & Hnone).
    assert (Failed NoSuchKey ∈
              (λ p, rename_reply (db w) p.1) ∘
                (λ c, (name_of hostname c, name_of newHostname c))
                <$> migrated (by_rank z)) as Hfailed.
    { apply list_elem_of_fmap. exists c. split; [|done].
      unfold rename_reply. simpl. destruct (db w !! name_of hostname c) eqn:E; [|done].
      destruct Hnone. eauto. }
    by destruct (first_failure_Failed 0 _ _ Hfailed) as [i ->].
Qed.

(** X19.  [changeDomain] leaves the indexes of users behind: the index
    [links:timestamps[hostname]:userId] is under the old hostname after
    the call as before it, and nothing is put under
    [links:timestamps[newHostname]:userId]; so, on a new hostname that
    was unused, [getLinksForProject(newHostname, userId)] returns the
    empty array. *)
Theorem changeDomain_leaves_user_indexes hostname newHostname userId w :
  apart hostname newHostname = true →
  truthy userId = true →
  db (after (changeDomain hostname newHostname) w) !! timestamps_name hostname userId
    = db w !! timestamps_name hostname userId ∧
  db (after (changeDomain hostname newHostname) w) !! timestamps_name newHostname userId
    = db w !! timestamps_name newHostname userId ∧
  (unused (db w) newHostname →
   getLinksForProject newHostname userId (after (changeDomain hostname newHostname) w)
     = (Returns [], after (changeDomain hostname newHostname) w)).
Proof.
  intros Hapart Ht.
  assert (Hown : ∀ h c, timestamps_name h userId ≠ name_of h c).
  { intros h [| | |k]; simpl.
    - apply not_eq_sym, links_name_ne_timestamps.
    - by apply timestamps_name_user_ne.
    - apply not_eq_sym, root_clicks_name_ne_timestamps.
    - apply timestamps_name_ne_clicks. }
  assert (Hother : ∀ h1 h2 c, apart h1 h2 = true → timestamps_name h1 userId ≠ name_of h2 c).
  { intros h1 h2 c Ha E. apply (apart_namespace h1 h2 (timestamps_name h1 userId) Ha).
    - apply namespace_timestamps_name.
    - rewrite E. apply namespace_name_of. }
  assert (Hkeep : ∀ h, (∀ c, timestamps_name h userId ≠ name_of hostname c) →
                       (∀ c, timestamps_name h userId ≠ name_of newHostname c) →
            db (after (changeDomain hostname newHostname) w) !! timestamps_name h userId
            = db w !! timestamps_name h userId).
  { intros h H1 H2. unfold after. rewrite changeDomain_db.
    destruct (as_zset _ _) as [e|z]; [done|]. cbn [db set_db].
    apply lookup_move_all_other. intros [c [Hc [E|E]]]%elem_of_names_fmap.
    - by apply H1 in E.
    - by apply H2 in E. }
  assert (Hnew : db (after (changeDomain hostname newHostname) w)
                   !! timestamps_name newHostname userId
                 = db w !! timestamps_name newHostname userId).
  { apply Hkeep; [|apply Hown]. intros c. apply Hother. by rewrite apart_sym. }
  split_and!.
  - apply Hkeep; [apply Hown|]. intros c. by apply Hother.
  - exact Hnew.
  - intros Hunused. unfold getLinksForProject, bind, redis_read, ZRANGE, as_zset.
    rewrite Hnew.
    rewrite (unused_lookup _ newHostname _ Hunused (namespace_timestamps_name _ _)).
    by rewrite by_rank_empty.
Qed.

End further.

(** * The further properties at work *)

(** The generator of [october] started again on a database that has its
    first identifier: [setRandomKey] takes the second, at the third
    clock reading. *)
Lemma setRandomKey_takes_first_free_candidate_witness :
  is_Some (links_of (db collision_world) "ex.test" !! "a1B2c3D") ∧
  links_of (db collision_world) "ex.test" !! "e4F5g6H" = None ∧
  ∃ w', setRandomKey (rt := october) 2 "ex.test" "https://example.org" (Some "Example")
          collision_world = (Returns (mkRandomKey (Int 1) "e4F5g6H"), w') ∧
        links_of (db w') "ex.test" !! "e4F5g6H"
          = Some (mkLink "https://example.org" "Example" 1664971202000) ∧
        draws w' = 2%nat.
Proof.
  assert (as_hash (db collision_world) (links_name "ex.test")
          = inr (links_of (db collision_world) "ex.test")) as Hh by by_computation.
  assert (∀ j, (j < 1)%nat →
            is_Some (links_of (db collision_world) "ex.test"
                       !! @nanoid october (draws collision_world + j))) as Htaken.
  { intros j Hj. replace j with 0%nat by lia. by_computation. }
  assert (links_of (db collision_world) "ex.test"
            !! @nanoid october (draws collision_world + 1) = None) as Hfree by by_computation.
  split; [by_computation|]. split; [by_computation|].
  destruct (setRandomKey_takes_first_free_candidate (rt := october) 1 2 "ex.test"
              "https://example.org" (Some "Example") collision_world _
              (Nat.lt_succ_diag_r 1) Hh Htaken Hfree)
    as (w' & Hrun & Hl & _ & Hd & _).
  exists w'. split; [exact Hrun|].
  split; [rewrite Hl; by_computation|]. rewrite Hd. by_computation.
Defined.

(** A generator with one identifier left, and that one taken: neither
    function returns, at any depth. *)
Lemma random_key_recursion_never_ends_when_all_taken_witness :
  is_Some (links_of (db ex_test_stuck) "ex.test" !! "zzzzzzz") ∧
  (∀ j, @nanoid stuck j = "zzzzzzz") ∧
  (setRandomKey (rt := stuck) 5 "ex.test" "https://example.org" None ex_test_stuck).1
    = OutOfFuel ∧
  (getRandomKey (rt := stuck) 5 "ex.test" ex_test_stuck).1 = OutOfFuel.
Proof.
  assert (as_hash (db ex_test_stuck) (links_name "ex.test")
          = inr (links_of (db ex_test_stuck) "ex.test")) as Hh by by_computation.
  assert (is_Some (links_of (db ex_test_stuck) "ex.test" !! "zzzzzzz")) as Hz
    by by_computation.
  destruct (random_key_recursion_never_ends_when_all_taken (rt := stuck) 5 "ex.test"
              "https://example.org" None ex_test_stuck _ Hh (λ _, Hz)) as [Hs Hg].
  split; [exact Hz|]. split; [intros j; reflexivity|].
  rewrite Hs, Hg. split; reflexivity.
Defined.

(** The same state: [getRandomKey] hands out the second identifier and
    writes nothing. *)
Lemma getRandomKey_takes_first_free_candidate_witness :
  is_Some (links_of (db collision_world) "ex.test" !! "a1B2c3D") ∧
  links_of (db collision_world) "ex.test" !! "e4F5g6H" = None ∧
  ∃ w', getRandomKey (rt := october) 2 "ex.test" collision_world = (Returns "e4F5g6H", w') ∧
        db w' = db collision_world ∧ draws w' = 2%nat.
Proof.
  assert (as_hash (db collision_world) (links_name "ex.test")
          = inr (links_of (db collision_world) "ex.test")) as Hh by by_computation.
  assert (∀ j, (j < 1)%nat →
            is_Some (links_of (db collision_world) "ex.test"
                       !! @nanoid october (draws collision_world + j))) as Htaken.
  { intros j Hj. replace j with 0%nat by lia. by_computation. }
  assert (links_of (db collision_world) "ex.test"
            !! @nanoid october (draws collision_world + 1) = None) as Hfree by by_computation.
  split; [by_computation|]. split; [by_computation|].
  destruct (getRandomKey_takes_first_free_candidate (rt := october) 1 2 "ex.test"
              collision_world _ (Nat.lt_succ_diag_r 1) Hh Htaken Hfree)
    as (w' & Hrun & Hdb & _ & Hd & _).
  exists w'. split; [exact Hrun|]. split; [exact Hdb|]. rewrite Hd. by_computation.
Defined.

(** In the scenario ["abc1234"] is taken and ["fresh01"] is not. *)
Lemma checkIfKeyExists_decides_addLink_witness :
  (checkIfKeyExists (rt := october) "ex.test" "abc1234" ex_test_created).1 = Returns (Int 1) ∧
  (addLink (rt := october) 0 "ex.test" "https://example.org" (Some "abc1234") None None
     ex_test_created).1 = Returns None ∧
  (checkIfKeyExists (rt := october) "ex.test" "fresh01" ex_test_created).1 = Returns (Int 0) ∧
  (addLink (rt := october) 0 "ex.test" "https://example.org" (Some "fresh01") None None
     ex_test_created).1 = Returns (Some (Int 1)).
Proof.
  assert (as_hash (db ex_test_created) (links_name "ex.test")
          = inr (links_of (db ex_test_created) "ex.test")) as Hh by by_computation.
  assert (as_zset (db ex_test_created) (timestamps_name "ex.test" None)
          = inr (timestamps_of (db ex_test_created) "ex.test" None)) as Hz by by_computation.
  assert ("abc1234" ≠ "") as Hne1 by (intros E; discriminate E).
  assert ("fresh01" ≠ "") as Hne2 by (intros E; discriminate E).
  destruct (checkIfKeyExists_decides_addLink (rt := october) 0 "ex.test" "https://example.org"
              "abc1234" None None ex_test_created _ _ Hne1 Hh Hz)
    as (taken1 & r1 & w1 & Ht1 & Hc1 & Ha1 & Hr1).
  destruct (checkIfKeyExists_decides_addLink (rt := october) 0 "ex.test" "https://example.org"
              "fresh01" None None ex_test_created _ _ Hne2 Hh Hz)
    as (taken2 & r2 & w2 & Ht2 & Hc2 & Ha2 & Hr2).
  assert (taken1 = true) as E1 by (rewrite Ht1; by_computation).
  assert (taken2 = false) as E2 by (rewrite Ht2; by_computation).
  rewrite E1 in Hc1, Hr1. rewrite E2 in Hc2, Hr2.
  destruct Hr1 as [Hr1 _]. destruct Hr2 as [Hr2 _].
  rewrite Hc1, Ha1, Hc2, Ha2, Hr1, Hr2. cbn [fst bool_to_Z].
  split; [reflexivity|]. split; [reflexivity|]. split; [reflexivity|].
  by_computation.
Defined.

(** On the server of [october] the key ["login"] is reserved. *)
Lemma reserved_key_refused_by_every_entry_point_witness :
  "login" ∈ @RESERVED_KEYS october ∧
  checkIfKeyExists (rt := october) "dub.sh" "login" empty_world
    = (Returns (Int 1), empty_world) ∧
  addLink (rt := october) 0 "dub.sh" "https://example.com" (Some "login") None None empty_world
    = (Returns None, empty_world) ∧
  editLink (rt := october) "dub.sh" "abc1234" "login" "https://example.com" "Example" 7 None
    empty_world = (Returns Rejected, empty_world).
Proof.
  assert ("login" ∈ @RESERVED_KEYS october) as Hin by by_computation.
  assert ("login" ≠ "") as Hne by (intros E; discriminate E).
  assert ("abc1234" ≠ "login") as Hk by (intros E; discriminate E).
  destruct (reserved_key_refused_by_every_entry_point (rt := october) "login" empty_world
              Hin Hne) as (Hc & Ha & He).
  split; [exact Hin|]. split; [exact Hc|]. split; [apply Ha|]. apply He, Hk.
Defined.

(** The first click of the scenario: the log of ["abc1234"] is created
    with one member and the links stay. *)
Lemma recordClick_adds_to_one_log_witness :
  as_zset (db ex_test_created) (clicks_name "ex.test" "abc1234") = inr ∅ ∧
  ∃ w', recordClick (rt := october) "ex.test" visitor (Some "abc1234") ex_test_created
          = (Returns (Int 1), w') ∧
        size (clicks_of (db w') "ex.test" "abc1234") = 1%nat ∧
        links_of (db w') "ex.test" = links_of (db ex_test_created) "ex.test".
Proof.
  assert (as_zset (db ex_test_created) (clicks_name "ex.test" "abc1234") = inr ∅) as Hc
    by by_computation.
  split; [exact Hc|].
  destruct (recordClick_adds_to_one_log (rt := october) "ex.test" visitor (Some "abc1234")
              ex_test_created ∅ Hc) as (w' & Hrun & Hlog & _ & Hl & _).
  exists w'. unfold has_field in Hrun. rewrite lookup_empty in Hrun.
  split; [exact Hrun|]. split; [|exact Hl].
  unfold clicks_of.
  change (clicks_name "ex.test" "abc1234")
    with (if truthy (Some "abc1234") then clicks_name "ex.test" (default "" (Some "abc1234"))
          else root_clicks_name "ex.test").
  rewrite Hlog, map_size_insert_None by apply lookup_empty.
  by rewrite map_size_empty.
Defined.

(** A first click on ["abc1234"], in a billing cycle that started at
    the epoch, makes a usage of 1. *)
Lemma recordClick_is_counted_by_getUsage_witness :
  GET (usage_name "ex.test") (db ex_test_created) = inr None ∧
  by_rank (timestamps_of (db ex_test_created) "ex.test" None) = ["abc1234"] ∧
  plain "abc1234" = true ∧
  clicks_of (db ex_test_created) "ex.test" "abc1234" = ∅ ∧
  (getUsage (rt := october) "ex.test" (Some 0)
     (after (recordClick (rt := october) "ex.test" visitor (Some "abc1234"))
        ex_test_created)).1 = Returns 1.
Proof.
  assert ("abc1234" ≠ "") as Hne by (intros E; discriminate E).
  assert (GET (usage_name "ex.test") (db ex_test_created) = inr None) as Hget
    by by_computation.
  assert (as_zset (db ex_test_created) (timestamps_name "ex.test" None)
          = inr (timestamps_of (db ex_test_created) "ex.test" None)) as Hz by by_computation.
  assert (as_zset (db ex_test_created) (clicks_name "ex.test" "abc1234") = inr ∅) as Hc
    by by_computation.
  assert (is_Some (timestamps_of (db ex_test_created) "ex.test" None !! "abc1234")) as Hin
    by by_computation.
  assert (by_rank (timestamps_of (db ex_test_created) "ex.test" None) = ["abc1234"])
    as Hkeys by by_computation.
  assert (∀ k, is_Some (timestamps_of (db ex_test_created) "ex.test" None !! k) →
               plain k = true) as Hplain.
  { apply plain_members. by_computation. }
  assert (∀ k, is_Some (timestamps_of (db ex_test_created) "ex.test" None !! k) →
               ∃ c, as_zset (db ex_test_created) (clicks_name "ex.test" k) = inr c)
    as Htyped.
  { intros k Hk%elem_of_by_rank.
    rewrite Hkeys in Hk. apply list_elem_of_singleton in Hk. rewrite Hk.
    exists ∅. exact Hc. }
  assert (0 ≤ @Date_now october (ticks ex_test_created)
            ≤ @Date_now october (S (S (ticks ex_test_created)))) as Hwin by by_computation.
  split; [exact Hget|]. split; [exact Hkeys|]. split; [reflexivity|].
  split; [by_computation|].
  rewrite (recordClick_is_counted_by_getUsage (rt := october) "ex.test" visitor "abc1234" 0
             ex_test_created None _ ∅ Hne Hget eq_refl Hz Hplain Htyped Hin Hc
             (lookup_empty _) Hwin).
  by_computation.
Defined.



(** The list of [stale_index] has two elements and its count is 2. *)
Lemma getLinkCountForProject_is_length_of_list_witness :
  getLinksForProject "ex.test" None stale_index
    = (Returns [ mkProps "kept" (Some (mkLink "https://example.com" "Example" 2));
                 mkProps "gone" None ], stale_index) ∧
  getLinkCountForProject "ex.test" stale_index = (Returns (Int 2), stale_index).
Proof.
  assert (getLinksForProject "ex.test" None stale_index
          = (Returns [ mkProps "kept" (Some (mkLink "https://example.com" "Example" 2));
                       mkProps "gone" None ], stale_index)) as Hlist by by_computation.
  split; [exact Hlist|].
  exact (getLinkCountForProject_is_length_of_list "ex.test" stale_index _ _ Hlist).
Defined.

(** A create under a user leaves the count of ["dub.sh"] at 0, a
    create without one takes the count of ["ex.test"] to 1. *)
Lemma addLink_counts_only_without_user_witness :
  (getLinkCountForProject "dub.sh" empty_world).1 = Returns (Int 0) ∧
  addLink (rt := october) 0 "dub.sh" "https://example.com" (Some "abc1234") None
    (Some "user1") empty_world = (Returns (Some (Int 1)), user_world) ∧
  getLinkCountForProject "dub.sh" user_world = (Returns (Int 0), user_world) ∧
  addLink (rt := october) 0 "ex.test" "https://example.com" (Some "abc1234") None None
    empty_world = (Returns (Some (Int 1)), ex_test_created) ∧
  getLinkCountForProject "ex.test" ex_test_created = (Returns (Int 1), ex_test_created).
Proof.
  assert (addLink (rt := october) 0 "dub.sh" "https://example.com" (Some "abc1234") None
            (Some "user1") empty_world = (Returns (Some (Int 1)), user_world)) as Hrun1
    by by_computation.
  assert (addLink (rt := october) 0 "ex.test" "https://example.com" (Some "abc1234") None None
            empty_world = (Returns (Some (Int 1)), ex_test_created)) as Hrun2
    by by_computation.
  assert (as_zset (db empty_world) (timestamps_name "dub.sh" None) = inr ∅) as Hz1
    by by_computation.
  assert (as_zset (db empty_world) (timestamps_name "ex.test" None) = inr ∅) as Hz2
    by by_computation.
  split; [by_computation|]. split; [exact Hrun1|].
  split; [exact (addLink_counts_only_without_user (rt := october) _ _ _ _ _ _ _ _ _ _
                   Hrun1 Hz1)|].
  split; [exact Hrun2|].
  exact (addLink_counts_only_without_user (rt := october) _ _ _ _ _ _ _ _ _ _ Hrun2 Hz2).
Defined.


(** In the scenario an edit of another key to ["abc1234"] is refused. *)
Lemma editLink_taken_key_rejected_witness :
  is_Some (links_of (db ex_test_created) "ex.test" !! "abc1234") ∧
  editLink (rt := october) "ex.test" "other12" "abc1234" "https://example.org" "Example" 7 None
    ex_test_created = (Returns Rejected, ex_test_created).
Proof.
  assert (as_hash (db ex_test_created) (links_name "ex.test")
          = inr (links_of (db ex_test_created) "ex.test")) as Hh by by_computation.
  assert (links_of (db ex_test_created) "ex.test" !! "abc1234"
          = Some (mkLink "https://example.com" "Title of https://example.com" 1664971200000))
    as Hk by by_computation.
  assert ("other12" ≠ "abc1234") as Hne by (intros E; discriminate E).
  split; [rewrite Hk; eauto|].
  exact (editLink_taken_key_rejected (rt := october) "ex.test" "other12" "abc1234"
           "https://example.org" "Example" 7 None ex_test_created _ _ Hne Hh Hk).
Defined.

(** In [renamed_world] the link ["renamed"], with its three clicks, is
    renamed to ["again12"] and back. *)
Lemma editLink_round_trip_witness :
  links_of (db renamed_world) "ex.test" !! "renamed"
    = Some (mkLink "https://example.org" "Example" 7) ∧
  timestamps_of (db renamed_world) "ex.test" None !! "renamed" = Some 7 ∧
  size (clicks_of (db renamed_world) "ex.test" "renamed") = 3%nat ∧
  ∃ rs1 rs2 w1,
    editLink (rt := october) "ex.test" "renamed" "again12" "https://example.org" "Example" 7
      None renamed_world = (Returns (Renamed rs1), w1) ∧
    links_of (db w1) "ex.test" !! "renamed" = None ∧
    editLink (rt := october) "ex.test" "again12" "renamed" "https://example.org" "Example" 7
      None w1 = (Returns (Renamed rs2), renamed_world).
Proof.
  assert ("renamed" ≠ "again12") as Hne by (intros E; discriminate E).
  assert (reserved (rt := october) "ex.test" "again12" = false) as Hres1 by by_computation.
  assert (reserved (rt := october) "ex.test" "renamed" = false) as Hres2 by by_computation.
  assert (as_hash (db renamed_world) (links_name "ex.test")
          = inr (links_of (db renamed_world) "ex.test")) as Hh by by_computation.
  assert (links_of (db renamed_world) "ex.test" !! "renamed"
          = Some (mkLink "https://example.org" "Example" 7)) as Hk by by_computation.
  assert (links_of (db renamed_world) "ex.test" !! "again12" = None) as Hnew
    by by_computation.
  assert (as_zset (db renamed_world) (timestamps_name "ex.test" None)
          = inr (timestamps_of (db renamed_world) "ex.test" None)) as Hz by by_computation.
  assert (timestamps_of (db renamed_world) "ex.test" None !! "renamed" = Some 7) as Hzk
    by by_computation.
  assert (timestamps_of (db renamed_world) "ex.test" None !! "again12" = None) as Hznew
    by by_computation.
  assert (as_zset (db renamed_world) (clicks_name "ex.test" "renamed")
          = inr (clicks_of (db renamed_world) "ex.test" "renamed")) as Hc by by_computation.
  assert (db renamed_world !! clicks_name "ex.test" "again12" = None) as Hcnew
    by by_computation.
  split; [exact Hk|]. split; [exact Hzk|]. split; [by_computation|].
  destruct (editLink_round_trip (rt := october) "ex.test" "renamed" "again12"
              "https://example.org" "Example" 7 None renamed_world _ _ _
              Hne Hres1 Hres2 Hh Hk Hnew Hz Hzk Hznew Hc Hcnew)
    as (rs1 & rs2 & w1 & Hrun1 & Hgone & _ & Hrun2).
  exists rs1, rs2, w1. split; [exact Hrun1|]. split; [exact Hgone|exact Hrun2].
Defined.


(** The clicks of ["unlisted"], a key in no index, leave the usage of
    the scenario at 3. *)
Lemma getUsage_ignores_unindexed_keys_witness :
  timestamps_of (db ex_test_clicked) "ex.test" None !! "unlisted" = None ∧
  size (zset_at unlisted_clicks (clicks_name "ex.test" "unlisted")) = 1%nat ∧
  (getUsage (rt := october) "ex.test" None (set_db unlisted_clicks ex_test_clicked)).1
    = Returns 3.
Proof.
  assert (GET (usage_name "ex.test") (db ex_test_clicked) = inr None) as Hget
    by by_computation.
  assert (as_zset (db ex_test_clicked) (timestamps_name "ex.test" None)
          = inr (timestamps_of (db ex_test_clicked) "ex.test" None)) as Hz by by_computation.
  assert (by_rank (timestamps_of (db ex_test_clicked) "ex.test" None) = ["abc1234"])
    as Hkeys by by_computation.
  assert (∀ k, is_Some (timestamps_of (db ex_test_clicked) "ex.test" None !! k) →
               plain k = true) as Hplain.
  { apply plain_members. by_computation. }
  assert (∀ k, is_Some (timestamps_of (db ex_test_clicked) "ex.test" None !! k) →
               ∃ c, as_zset (db ex_test_clicked) (clicks_name "ex.test" k) = inr c)
    as Htyped.
  { intros k Hk%elem_of_by_rank.
    rewrite Hkeys in Hk. apply list_elem_of_singleton in Hk. rewrite Hk.
    exists (clicks_of (db ex_test_clicked) "ex.test" "abc1234"). by_computation. }
  assert (timestamps_of (db ex_test_clicked) "ex.test" None !! "unlisted" = None) as Hk
    by by_computation.
  assert (∀ name, name ≠ clicks_name "ex.test" "unlisted" →
                  unlisted_clicks !! name = db ex_test_clicked !! name) as Hd.
  { intros name Hn. unfold unlisted_clicks. apply lookup_insert_ne.
    intros E. apply Hn. rewrite <- E. reflexivity. }
  split; [exact Hk|]. split; [by_computation|].
  rewrite (getUsage_ignores_unindexed_keys (rt := october) "ex.test" None ex_test_clicked
             None _ "unlisted" unlisted_clicks Hget eq_refl Hz Hplain Htyped Hk Hd).
  by_computation.
Defined.

(** Before the first click the scenario has no [root:clicks] and no
    click log: the call returns [null] although [links] has moved.
    After the clicks all four collections are bound and the call returns
    four replies. *)
Lemma changeDomain_returns_null_unless_all_bound_witness :
  apart "ex.test" "new.test" = true ∧
  db ex_test_created !! root_clicks_name "ex.test" = None ∧
  (changeDomain "ex.test" "new.test" ex_test_created).1 = Returns None ∧
  is_Some (links_of (db (after (changeDomain "ex.test" "new.test") ex_test_created))
             "new.test" !! "abc1234") ∧
  (changeDomain "ex.test" "new.test" ex_test_clicked).1
    = Returns (Some [Status; Status; Status; Status]).
Proof.
  assert (as_zset (db ex_test_created) (timestamps_name "ex.test" None)
          = inr (timestamps_of (db ex_test_created) "ex.test" None)) as Hz1 by by_computation.
  assert (as_zset (db ex_test_clicked) (timestamps_name "ex.test" None)
          = inr (timestamps_of (db ex_test_clicked) "ex.test" None)) as Hz2 by by_computation.
  assert (∀ k, is_Some (timestamps_of (db ex_test_created) "ex.test" None !! k) →
               plain k = true) as Hplain1.
  { apply plain_members. by_computation. }
  assert (∀ k, is_Some (timestamps_of (db ex_test_clicked) "ex.test" None !! k) →
               plain k = true) as Hplain2.
  { apply plain_members. by_computation. }
  split; [reflexivity|]. split; [by_computation|].
  rewrite (changeDomain_returns_null_unless_all_bound "ex.test" "new.test" ex_test_created
             _ eq_refl Hz1 Hplain1).
  rewrite (changeDomain_returns_null_unless_all_bound "ex.test" "new.test" ex_test_clicked
             _ eq_refl Hz2 Hplain2).
  split_and!; by_computation.
Defined.

(** The link created for ["user1"] on ["dub.sh"]: after the change of
    domain its record is under ["new.test"], the index of the user is
    still under ["dub.sh"], and the list of the user under ["new.test"]
    is empty. *)
Lemma changeDomain_leaves_user_indexes_witness :
  apart "dub.sh" "new.test" = true ∧
  unused (db user_world) "new.test" ∧
  timestamps_of (db user_world) "dub.sh" (Some "user1") !! "abc1234" = Some 1664971201000 ∧
  timestamps_of (db (after (changeDomain "dub.sh" "new.test") user_world)) "dub.sh"
    (Some "user1") !! "abc1234" = Some 1664971201000 ∧
  is_Some (links_of (db (after (changeDomain "dub.sh" "new.test") user_world)) "new.test"
             !! "abc1234") ∧
  getLinksForProject "new.test" (Some "user1")
    (after (changeDomain "dub.sh" "new.test") user_world)
    = (Returns [], after (changeDomain "dub.sh" "new.test") user_world).
Proof.
  assert (unused (db user_world) "new.test") as Hunused by by_computation.
  destruct (changeDomain_leaves_user_indexes "dub.sh" "new.test" (Some "user1") user_world
              eq_refl eq_refl) as (Hold & _ & Hlist).
  split; [reflexivity|]. split; [exact Hunused|]. split; [by_computation|].
  split; [unfold timestamps_of, zset_at; rewrite Hold; by_computation|].
  split; [by_computation|]. exact (Hlist Hunused).
Defined.
